(** * Web-Scraper: a shallow embedding of [main.py] and [app.py]

    The scraper talks to the network, to a headless browser and to the
    file system.  Every such call is an oracle of a [World] (or of a
    [Page] once the browser has loaded one); the Python control flow
    around the calls is what is embedded here: the selector cascades,
    the escalation from the static fetch to the rendered one, the
    exception handlers, the scroll loop, the cache gate of the API and
    the accumulating trending scraper.

    Log output ([logging.*]) does not raise and alters no value that is
    returned or persisted: it is left out.  The [print] calls of [main]
    sit inside its [try] blocks, where an exception of the console
    changes what the handlers do: there the console is an oracle
    [print].  The progress lines of [AniListScraper] are left out. *)

From Stdlib Require Import String Ascii List Bool Arith ZArith QArith Lia DecimalString.
Import ListNotations.
Close Scope Q_scope.
Open Scope string_scope.
Open Scope nat_scope.

(** ** Python strings and truthiness *)

Module Py.

(** [str.isspace] on one ASCII character: TAB..CR, FS..US and the blank. *)
Definition isspace (c : ascii) : bool :=
  let n := nat_of_ascii c in
  ((9 <=? n) && (n <=? 13)) || ((28 <=? n) && (n <=? 32)).

Definition is_empty (s : string) : bool :=
  match s with EmptyString => true | String _ _ => false end.

Fixpoint lstrip (s : string) : string :=
  match s with
  | EmptyString => EmptyString
  | String c r => if isspace c then lstrip r else s
  end.

Fixpoint rstrip (s : string) : string :=
  match s with
  | EmptyString => EmptyString
  | String c r =>
      let r' := rstrip r in
      if isspace c && is_empty r' then EmptyString else String c r'
  end.

(** [s.strip()] *)
Definition strip (s : string) : string := rstrip (lstrip s).

Definition upper (c : ascii) : ascii :=
  let n := nat_of_ascii c in
  if (97 <=? n) && (n <=? 122) then ascii_of_nat (n - 32) else c.

Definition lower (c : ascii) : ascii :=
  let n := nat_of_ascii c in
  if (65 <=? n) && (n <=? 90) then ascii_of_nat (n + 32) else c.

Fixpoint lower_all (s : string) : string :=
  match s with
  | EmptyString => EmptyString
  | String c r => String (lower c) (lower_all r)
  end.

(** [s.capitalize()] on ASCII text: first character upper-cased, the
    rest lower-cased. *)
Definition capitalize (s : string) : string :=
  match s with
  | EmptyString => EmptyString
  | String c r => String (upper c) (lower_all r)
  end.

(** [s.startswith(p)] *)
Fixpoint startswith (s p : string) : bool :=
  match p, s with
  | EmptyString, _ => true
  | String _ _, EmptyString => false
  | String b p', String a s' => Ascii.eqb a b && startswith s' p'
  end.

(** [s.endswith(suf)]: some tail of [s] is [suf]. *)
Fixpoint endswith (s suf : string) : bool :=
  String.eqb s suf ||
  match s with
  | EmptyString => false
  | String _ r => endswith r suf
  end.

(** Truth value of a variable holding [None] or a [str]. *)
Definition truthy (v : option string) : bool :=
  match v with
  | None => false
  | Some s => negb (is_empty s)
  end.

(** [a or b] on two such values. *)
Definition or_ (a b : option string) : option string :=
  if truthy a then a else b.

(** [a or "literal"]: always a string. *)
Definition or_default (a : option string) (d : string) : string :=
  match a with
  | Some s => if is_empty s then d else s
  | None => d
  end.

(** [d[k]] / [k in d] on a dict written as a literal. *)
Fixpoint lookup {A : Type} (d : list (string * A)) (k : string) : option A :=
  match d with
  | [] => None
  | (k', v) :: rest => if String.eqb k k' then Some v else lookup rest k
  end.

End Py.

(** ** Exceptions, results and the effect monad *)

Inductive exn_class : Type :=
| RequestException        (* requests.exceptions.RequestException and subclasses *)
| NoSuchElementException  (* selenium *)
| TimeoutException        (* selenium *)
| WebDriverException      (* selenium, any other *)
| OtherException.         (* OSError, KeyError, TypeError, ... *)

Record exn : Type := mkExn { exn_cls : exn_class; exn_msg : string }.

Definition is_request_exception (e : exn) : bool :=
  match exn_cls e with RequestException => true | _ => false end.

Definition is_no_such_element (e : exn) : bool :=
  match exn_cls e with NoSuchElementException => true | _ => false end.

Definition is_timeout (e : exn) : bool :=
  match exn_cls e with TimeoutException => true | _ => false end.

Inductive result (A : Type) : Type :=
| Ok (a : A)
| Raise (e : exn).
Arguments Ok {A} a.
Arguments Raise {A} e.

(** What a run does to the outside, in program order. *)
Inductive event : Type :=
| EvRequest (url : string)            (* requests.get(url, ...) was issued *)
| EvChrome                            (* create_chrome_driver() was called *)
| EvNavigate (url : string)           (* driver.get(url) *)
| EvQuit                              (* driver.quit() *)
| EvScreenshot (path : string)        (* driver.save_screenshot(path) *)
| EvScroll (scrolls : nat)            (* that many window.scrollTo(...) *)
| EvWrite (path content : string).    (* open(path, "w").write(content) *)

(** A computation: the events it caused and how it ended. *)
Definition M (A : Type) : Type := (list event * result A)%type.

Definition ret {A} (a : A) : M A := ([], Ok a).
Definition raise {A} (e : exn) : M A := ([], Raise e).
Definition tell (ev : event) : M unit := ([ev], Ok tt).

Definition bind {A B} (m : M A) (k : A -> M B) : M B :=
  match m with
  | (t, Ok a) => let '(t', r) := k a in ((t ++ t')%list, r)
  | (t, Raise e) => (t, Raise e)
  end.

(** An oracle call: the call is recorded, then its outcome decides. *)
Definition call {A} (ev : event) (r : result A) : M A := ([ev], r).

(** An outcome that leaves no trace ([find_element], ...). *)
Definition pure_call {A} (r : result A) : M A := ([], r).

(** [try: body  except Exception as e: handler(e)] *)
Definition try_except {A} (body : M A) (handler : exn -> M A) : M A :=
  match body with
  | (t, Ok a) => (t, Ok a)
  | (t, Raise e) => let '(t', r) := handler e in ((t ++ t')%list, r)
  end.

(** [try: body  finally: cleanup] where [cleanup] itself cannot raise. *)
Definition finally_ {A} (body : M A) (cleanup : list event) : M A :=
  ((fst body ++ cleanup)%list, snd body).

Declare Scope py_scope.
Delimit Scope py_scope with py.
Notation "x <- m ;; k" := (bind m (fun x => k))
  (at level 61, m at next level, right associativity) : py_scope.
Notation "m ;;; k" := (bind m (fun _ => k))
  (at level 61, right associativity) : py_scope.
Open Scope py_scope.

Definition trace {A} (m : M A) : list event := fst m.
Definition outcome {A} (m : M A) : result A := snd m.

(** ** Documents *)

(** A BeautifulSoup tag: its attributes and the text nodes below it. *)
Record Tag : Type := mkTag {
  tag_attrs : list (string * string);
  tag_strings : list string
}.

(** [tag.get(name)] *)
Definition tag_get (t : Tag) (name : string) : option string :=
  Py.lookup (tag_attrs t) name.

(** [tag.get_text(strip=True)]: every text node stripped, the empty ones
    dropped, the rest joined without a separator. *)
Definition get_text_strip (t : Tag) : string :=
  String.concat ""
    (filter (fun s => negb (Py.is_empty s)) (map Py.strip (tag_strings t))).

(** A parsed page: [soup.select_one] and [str(soup)]. *)
Record Soup : Type := mkSoup {
  select_one : string -> option Tag;
  soup_str : string
}.

(** A Selenium element: [.text], [.get_attribute] and the element-level
    [find_element]. *)
#[warnings="-register-all"]
Inductive WebElement : Type :=
| mkElem (text : string) (attrs : list (string * string))
         (find : string -> result WebElement).

Definition text (el : WebElement) : string :=
  match el with mkElem t _ _ => t end.

Definition get_attribute (el : WebElement) (name : string) : option string :=
  match el with mkElem _ a _ => Py.lookup a name end.

Definition elem_find_element (el : WebElement) (sel : string) : result WebElement :=
  match el with mkElem _ _ f => f sel end.

(** A page loaded in the browser. *)
Record Page : Type := mkPage {
  find_element : string -> result WebElement;
  find_elements : string -> result (list WebElement);
  page_source : string;
  save_screenshot : string -> result unit;
  wait_until_present : string -> result unit;
  (** the value of [document.body.scrollHeight] at its k-th evaluation *)
  scroll_height : nat -> Z
}.

(** The outside world of one run. *)
Record World : Type := mkWorld {
  (** [requests.get], [raise_for_status] and the [BeautifulSoup] parse *)
  requests_get : string -> result Soup;
  (** [open(path, "w", encoding="utf-8")] and [f.write(content)] *)
  fs_write : string -> string -> result unit;
  (** [create_chrome_driver()] when called to load that URL *)
  create_chrome_driver : string -> result unit;
  (** [driver.get(url)] and what the browser then shows *)
  driver_get : string -> result Page
}.

(** ** Configuration *)

Record Source : Type := mkSource { name : string; url : string }.

Definition NEWS_SOURCES : list Source :=
  [ mkSource "kompas" "https://www.kompas.com/";
    mkSource "detik" "https://www.detik.com/";
    mkSource "tribun" "https://www.tribunnews.com/" ].

Definition HEADLINE_SELECTORS : list (string * list string) :=
  [ ("kompas", [".read__title"; ".headline__title"; ".most__title"; ".trending__title"]);
    ("detik", [".detail__title"; ".media__title"; ".title"; "h1.title"; "h2.title"]);
    ("tribun", [".hltitle"; ".headline-caption"; ".newslist-title"; "h1.f50"]) ].

Definition IMAGE_SELECTORS : list (string * list string) :=
  [ ("kompas", [".photo__wrap img"; ".headline__thumb img"; "img.lozad"]);
    ("detik", [".detail__img-wrap img"; ".headline__img img"; "picture img"]);
    ("tribun", [".imgpreview img"; ".headline-img img"; ".news-image img"]) ].

Definition DEBUG_DIR_screenshots : string := "debug_screenshots".
Definition DEBUG_DIR_html : string := "debug_html".

Definition HEADLINE_NOT_FOUND : string := "Headline tidak ditemukan".
Definition IMAGE_NOT_FOUND : string := "Image tidak ditemukan".

(** ** News records *)

Record NewsRecord : Type := mkNews {
  Media : string;
  Headline : string;
  Image : string;
  URL : string
}.

(** The record of the [except Exception as e] handlers: the headline is
    [f"Error: {str(e)}"], the image a literal chosen by the handler. *)
Definition error_record (media_name url : string) (e : exn) (image : string)
  : NewsRecord :=
  mkNews (Py.capitalize media_name) ("Error: " ++ exn_msg e) image url.

(** ** [get_news_with_selenium] *)

(** Lines 319-327: the headline cascade over the live DOM.  The variable
    [headline_text] keeps the last value assigned to it. *)
Fixpoint selenium_headline_loop (p : Page) (selectors : list string)
    (headline_text : option string) : result (option string) :=
  match selectors with
  | [] => Ok headline_text
  | selector :: rest =>
      match find_element p selector with
      | Ok element =>
          let headline_text := Some (Py.strip (text element)) in
          if Py.truthy headline_text then Ok headline_text
          else selenium_headline_loop p rest headline_text
      | Raise e =>
          if is_no_such_element e
          then selenium_headline_loop p rest headline_text
          else Raise e
      end
  end.

(** Lines 330-341: the image cascade, [src] first and [data-src] second. *)
Fixpoint selenium_image_loop (p : Page) (selectors : list string)
    (image_url : option string) : result (option string) :=
  match selectors with
  | [] => Ok image_url
  | selector :: rest =>
      match find_element p selector with
      | Ok element =>
          let image_url :=
            Py.or_ (get_attribute element "src") (get_attribute element "data-src") in
          if Py.truthy image_url then Ok image_url
          else selenium_image_loop p rest image_url
      | Raise e =>
          if is_no_such_element e
          then selenium_image_loop p rest image_url
          else Raise e
      end
  end.

(** Lines 344-354. *)
Definition fallback_headline (p : Page) (headline_text : option string)
  : option string :=
  if Py.truthy headline_text then headline_text
  else match find_elements p "h1, h2, .title" with
       | Ok (first :: _) => Some (Py.strip (text first))
       | Ok [] => headline_text
       | Raise _ => Some HEADLINE_NOT_FOUND
       end.

Definition is_picture (src : string) : bool :=
  Py.endswith src ".jpg" || Py.endswith src ".png" || Py.endswith src ".jpeg".

Fixpoint first_picture (elements : list WebElement) (image_url : option string)
  : option string :=
  match elements with
  | [] => image_url
  | element :: rest =>
      match get_attribute element "src" with
      | Some src =>
          if negb (Py.is_empty src) && is_picture src then Some src
          else first_picture rest image_url
      | None => first_picture rest image_url
      end
  end.

(** Lines 357-374. *)
Definition fallback_image (p : Page) (image_url : option string)
  : option string :=
  if Py.truthy image_url then image_url
  else match find_elements p "img" with
       | Ok elements => first_picture elements image_url
       | Raise _ => Some IMAGE_NOT_FOUND
       end.

Definition selenium_headline_selectors (media_name : string) : list string :=
  match Py.lookup HEADLINE_SELECTORS media_name with
  | Some l => l
  | None => ["h1"; "h2.title"; ".headline"; ".title"]
  end.

Definition selenium_image_selectors (media_name : string) : list string :=
  match Py.lookup IMAGE_SELECTORS media_name with
  | Some l => l
  | None => ["img"]
  end.

(** Lines 304-374: what the rendered page yields for the two fields. *)
Definition selenium_extract (p : Page) (media_name : string)
  : result (option string * option string) :=
  match selenium_headline_loop p (selenium_headline_selectors media_name) None with
  | Raise e => Raise e
  | Ok headline_text =>
      match selenium_image_loop p (selenium_image_selectors media_name) None with
      | Raise e => Raise e
      | Ok image_url =>
          Ok (fallback_headline p headline_text, fallback_image p image_url)
      end
  end.

Definition news_record (media_name url : string)
    (headline_text image_url : option string) : NewsRecord :=
  mkNews (Py.capitalize media_name)
         (Py.or_default headline_text HEADLINE_NOT_FOUND)
         (Py.or_default image_url IMAGE_NOT_FOUND)
         url.

Definition get_news_with_selenium (w : World) (media_name url : string)
  : M NewsRecord :=
  finally_
    (try_except
       (call EvChrome (create_chrome_driver w url) ;;;
        page <- call (EvNavigate url) (driver_get w url) ;;
        (let shot := DEBUG_DIR_screenshots ++ "/" ++ media_name ++ "_screenshot.png" in
         call (EvScreenshot shot) (save_screenshot page shot)) ;;;
        fields <- pure_call (selenium_extract page media_name) ;;
        ret (news_record media_name url (fst fields) (snd fields)))
       (fun e => ret (error_record media_name url e "Error")))
    (* finally: if driver: driver.quit() *)
    (match create_chrome_driver w url with Ok _ => [EvQuit] | Raise _ => [] end).

(** ** [get_news] *)

(** Lines 424-430: the static headline cascade.  The [break] follows the
    first selector that matches an element, whatever its text. *)
Fixpoint static_headline_loop (soup : Soup) (selectors : list string)
  : option string :=
  match selectors with
  | [] => None
  | selector :: rest =>
      match select_one soup selector with
      | Some headline_elem => Some (get_text_strip headline_elem)
      | None => static_headline_loop soup rest
      end
  end.

Definition static_headline (soup : Soup) (media_name : string) : option string :=
  match Py.lookup HEADLINE_SELECTORS media_name with
  | Some selectors => static_headline_loop soup selectors
  | None => None
  end.

(** Lines 433-441: the static image cascade; here the [break] is under
    [if image_url]. *)
Fixpoint static_image_loop (soup : Soup) (selectors : list string)
    (image_url : option string) : option string :=
  match selectors with
  | [] => image_url
  | selector :: rest =>
      match select_one soup selector with
      | Some img_elem =>
          let image_url := Py.or_ (tag_get img_elem "src") (tag_get img_elem "data-src") in
          if Py.truthy image_url then image_url
          else static_image_loop soup rest image_url
      | None => static_image_loop soup rest image_url
      end
  end.

Definition static_image (soup : Soup) (media_name : string) : option string :=
  match Py.lookup IMAGE_SELECTORS media_name with
  | Some selectors => static_image_loop soup selectors None
  | None => None
  end.

Definition write_file (w : World) (path content : string) : M unit :=
  match fs_write w path content with
  | Ok _ => tell (EvWrite path content)
  | Raise e => raise e
  end.

(** Lines 405-441: fetch, parse, dump the HTML, run both cascades. *)
Definition static_attempt (w : World) (media_name url : string)
  : M (option string * option string) :=
  soup <- call (EvRequest url) (requests_get w url) ;;
  write_file w (DEBUG_DIR_html ++ "/" ++ media_name ++ "_debug.html") (soup_str soup) ;;;
  ret (static_headline soup media_name, static_image soup media_name).

Definition get_news (w : World) (media_name url : string) : M NewsRecord :=
  try_except
    (fields <- static_attempt w media_name url ;;
     let headline_text := fst fields in
     let image_url := snd fields in
     if negb (Py.truthy headline_text) || negb (Py.truthy image_url)
     then get_news_with_selenium w media_name url
     else ret (news_record media_name url headline_text image_url))
    (fun e =>
       if is_request_exception e
       then get_news_with_selenium w media_name url
       else ret (error_record media_name url e "N/A")).

(** ** The acquisition loop of the API endpoints *)

(** Lines 53-66 and 150-162 of [app.py]: inside the [try], the append is
    followed by a log line at most.  (The loop of [main] also prints
    there; it is [main_news_loop] below.) *)
Fixpoint news_loop (fetch : string -> string -> M NewsRecord)
    (sources : list Source) (news_data : list NewsRecord)
  : M (list NewsRecord) :=
  match sources with
  | [] => ret news_data
  | source :: rest =>
      news_data <-
        try_except
          (result <- fetch (name source) (url source) ;;
           ret (news_data ++ [result])%list)
          (fun e =>
             ret (news_data ++ [error_record (name source) (url source) e "Error"])%list) ;;
      news_loop fetch rest news_data
  end.

(** That loop over the configured sources. *)
Definition scrape_news (w : World) : M (list NewsRecord) :=
  news_loop (get_news w) NEWS_SOURCES [].

(** The rendered fetcher was started during the run. *)
Definition is_chrome (ev : event) : bool :=
  match ev with EvChrome => true | _ => false end.

Definition rendered_invoked {A} (m : M A) : bool := existsb is_chrome (trace m).

(** ** [scroll_and_collect] *)

Definition max_scrolls : nat := 20.

(** The [while scroll_count < max_scrolls] loop.  [heights k] is the
    value of [document.body.scrollHeight] at its k-th evaluation (the
    0-th is the one before the loop); the result is [scroll_count] when
    the loop is left, [None] if [fuel] unrollings were not enough. *)
Fixpoint scroll_loop (fuel : nat) (heights : nat -> Z)
    (last_height : Z) (scroll_count : nat) : option nat :=
  if scroll_count <? max_scrolls then
    match fuel with
    | O => None
    | S fuel =>
        let new_height := heights (S scroll_count) in
        let scroll_count := S scroll_count in
        if Z.eqb new_height last_height then Some scroll_count
        else scroll_loop fuel heights new_height scroll_count
    end
  else Some scroll_count.

Definition scroll_and_collect (heights : nat -> Z) : option nat :=
  scroll_loop max_scrolls heights (heights 0) 0.

(** ** [process_book_elements] *)

Record BookRecord : Type := mkBook {
  Judul : option string;
  Penerbit : option string;
  Harga : option string;
  Image_URL : option string
}.

Inductive element_type : Type := Img | Title | Publisher | Price.

Definition book_selectors (t : element_type) : list string :=
  match t with
  | Img => ["img.object-contain"; "img.product-image"; "img[data-testid='productImage']"]
  | Title => ["h2.text-neutral-700"; "h2.product-title"; "div.product-name";
              "[data-testid='productTitle']"]
  | Publisher => ["div.text-neutral-500"; "div.publisher"; "div.product-publisher";
                  "[data-testid='productPublisher']"]
  | Price => ["div.text-s-extrabold"; "div.product-price"; "div.price";
              "[data-testid='productPrice']"]
  end.

Definition NA : string := "N/A".

(** Lines 251-258: the value assigned to the local of that kind. *)
Definition extract (t : element_type) (element : WebElement) : option string :=
  match t with
  | Img => get_attribute element "src"
  | Title | Publisher => Py.or_ (get_attribute element "title") (Some (text element))
  | Price => Some (Py.strip (text element))
  end.

(** Lines 247-265 for one [element_type]: [current] is the local
    variable ([img], [title], ...), assigned at every match and tested
    through [locals()[element_type]]. *)
Fixpoint field_loop (book : WebElement) (t : element_type)
    (selector_list : list string) (current : option string)
  : result (option string) :=
  match selector_list with
  | [] => Ok current
  | sel :: rest =>
      match elem_find_element book sel with
      | Ok element =>
          let current := extract t element in
          if Py.truthy current then Ok current
          else field_loop book t rest current
      | Raise e =>
          if is_no_such_element e then field_loop book t rest current
          else Raise e
      end
  end.

Definition rbind {A B} (r : result A) (k : A -> result B) : result B :=
  match r with Ok a => k a | Raise e => Raise e end.

(** Lines 241-273: one book, the four kinds in the order of the dict. *)
Definition process_book (book : WebElement) : result BookRecord :=
  rbind (field_loop book Img (book_selectors Img) (Some NA)) (fun img =>
  rbind (field_loop book Title (book_selectors Title) (Some NA)) (fun title =>
  rbind (field_loop book Publisher (book_selectors Publisher) (Some NA)) (fun publisher =>
  rbind (field_loop book Price (book_selectors Price) (Some NA)) (fun price =>
  Ok (mkBook title publisher price img))))).

(** A book whose processing raises is logged and skipped. *)
Fixpoint process_book_elements (books : list WebElement) : list BookRecord :=
  match books with
  | [] => []
  | book :: rest =>
      match process_book book with
      | Ok book_data => book_data :: process_book_elements rest
      | Raise _ => process_book_elements rest
      end
  end.

(** ** [get_international_books] *)

Definition gramedia_url : string := "https://www.gramedia.com/promo/international-book".

Definition container_selectors : list string :=
  [ "div.ProductCard_cardContent__fawWr"; "div.product-card";
    "div[data-testid='productCard']"; "div.product-item" ].

(** Lines 155-160: the first selector with at least one match wins. *)
Fixpoint find_books (p : Page) (selectors : list string) (books : list WebElement)
  : result (list WebElement) :=
  match selectors with
  | [] => Ok books
  | selector :: rest =>
      match find_elements p selector with
      | Ok [] => find_books p rest []
      | Ok found => Ok found
      | Raise e => Raise e
      end
  end.

Definition page_source_path : string := DEBUG_DIR_html ++ "/page_source.html".

Definition get_international_books (w : World) : M (list BookRecord) :=
  finally_
    (try_except
       (call EvChrome (create_chrome_driver w gramedia_url) ;;;
        page <- call (EvNavigate gramedia_url) (driver_get w gramedia_url) ;;
        try_except
          (pure_call (wait_until_present page
                        "div.ProductCard_cardContent__fawWr, div.product-card"))
          (fun e =>
             if is_timeout e
             then (let shot := DEBUG_DIR_screenshots ++ "/timeout_error.png" in
                   call (EvScreenshot shot) (save_screenshot page shot))
             else raise e) ;;;
        match scroll_and_collect (scroll_height page) with
        | Some scrolls => tell (EvScroll scrolls)
        | None => ret tt
        end ;;;
        books <- pure_call (find_books page container_selectors []) ;;
        match books with
        | [] =>
            write_file w page_source_path (page_source page) ;;;
            ret []
        | _ => ret (process_book_elements books)
        end)
       (* both handlers only log; [data] is still the empty list *)
       (fun _ => ret []))
    (match create_chrome_driver w gramedia_url with Ok _ => [EvQuit] | Raise _ => [] end).

(** ** [AniListScraper] *)

Module AniList.

Record Entry : Type := mkEntry {
  title : option string;
  image : option string;
  tag : option string
}.

(** One element of [data["data"]["Page"]["media"]]; [BadMedia] is an
    element whose subscripting raises ([KeyError], [TypeError]). *)
Inductive MediaItem : Type :=
| Media (romaji english native large medium : option string)
| BadMedia (e : exn).

(** One [div.media-card] of the listing page. *)
Record Card : Type := mkCard {
  image_element : option Tag;   (* card.select_one("img.image") *)
  title_element : option Tag    (* card.select_one("div.title") *)
}.

Record Net : Type := mkNet {
  (** [requests.post], [raise_for_status], [response.json()] and the
      test of the keys [data], [Page], [media]: the list under [media],
      [None] when a key is missing, or the exception raised on the way *)
  graphql_post : result (option (list MediaItem));
  (** [requests.get(self.base_url)], [raise_for_status] and the cards
      that [soup.select("div.media-card")] finds in the text *)
  page_get : result (list Card)
}.

Inductive Call : Type := CallGraphQL | CallFetchPage.

(** The instance, the two artifacts under [results/] and the requests
    made so far. *)
Record State : Type := mkState {
  results : list Entry;
  json_file : option (list Entry);
  csv_file : option (list (list string));
  calls : list Call
}.

(** [AniListScraper()] next to the artifacts already on disk. *)
Definition init (json : option (list Entry)) (csv : option (list (list string)))
  : State :=
  mkState [] json csv [].

Definition set_results (s : State) (r : list Entry) : State :=
  mkState r (json_file s) (csv_file s) (calls s).

Definition log_call (s : State) (c : Call) : State :=
  mkState (results s) (json_file s) (csv_file s) (calls s ++ [c])%list.

(** Lines 577-586: [anime_data] of one well-formed element. *)
Definition media_entry (romaji english native large medium : option string) : Entry :=
  let title := Py.or_ (Py.or_ romaji english) native in
  let image_url := Py.or_ large medium in
  mkEntry title image_url title.

(** Lines 576-589: every entry is appended to [self.results]. *)
Fixpoint append_media (items : list MediaItem) (s : State) : State * result unit :=
  match items with
  | [] => (s, Ok tt)
  | Media romaji english native large medium :: rest =>
      append_media rest
        (set_results s (results s ++ [media_entry romaji english native large medium])%list)
  | BadMedia e :: _ => (s, Raise e)
  end.

(** [except requests.exceptions.RequestException: return 0] *)
Definition graphql_handler (s : State) (e : exn) : State * result nat :=
  if is_request_exception e then (s, Ok 0) else (s, Raise e).

Definition use_graphql_api (net : Net) (self : State) : State * result nat :=
  let self := log_call self CallGraphQL in
  match graphql_post net with
  | Raise e => graphql_handler self e
  | Ok None => (self, Ok (length (results self)))
  | Ok (Some items) =>
      match append_media items self with
      | (self, Ok _) => (self, Ok (length (results self)))
      | (self, Raise e) => graphql_handler self e
      end
  end.

(** [fetch_page]: the cards of the page, [None] after a request error. *)
Definition fetch_page (net : Net) (self : State)
  : State * result (option (list Card)) :=
  let self := log_call self CallFetchPage in
  match page_get net with
  | Ok cards => (self, Ok (Some cards))
  | Raise e => if is_request_exception e then (self, Ok None) else (self, Raise e)
  end.

Definition card_entry (card : Card) : Entry :=
  let image_url :=
    match image_element card with
    | Some el => match tag_get el "src" with Some src => src | None => "" end
    | None => ""
    end in
  let image_url :=
    if Py.startswith image_url "//" then "https:" ++ image_url else image_url in
  let title :=
    match title_element card with
    | Some el => get_text_strip el
    | None => ""
    end in
  mkEntry (Some title) (Some image_url) (Some title).

Definition extract_data_from_html (html_content : option (list Card)) (self : State)
  : State :=
  match html_content with
  | None => self
  | Some anime_cards => set_results self (results self ++ map card_entry anime_cards)%list
  end.

Definition save_to_json (self : State) : State :=
  mkState (results self) (Some (results self)) (csv_file self) (calls self).

Definition csv_str (v : option string) : string :=
  match v with Some s => s | None => "" end.

(** One line of the CSV, in the order of [fieldnames]. *)
Definition csv_row (e : Entry) : list string :=
  [csv_str (tag e); csv_str (image e); csv_str (title e)].

(** [fieldnames] of the [csv.DictWriter]. *)
Definition csv_header : list string := ["tag"; "image"; "title"].

Definition save_to_csv (self : State) : State :=
  match results self with
  | [] => self
  | _ => mkState (results self) (json_file self)
                 (Some (csv_header :: map csv_row (results self)))
                 (calls self)
  end.

Definition scrape_html (net : Net) (self : State) : State * result unit :=
  match fetch_page net self with
  | (self, Ok html_content) => (extract_data_from_html html_content self, Ok tt)
  | (self, Raise e) => (self, Raise e)
  end.

Definition persist (self : State) : State :=
  match results self with
  | [] => self
  | _ => save_to_csv (save_to_json self)
  end.

Definition run (net : Net) (use_api : bool) (self : State) : State * result unit :=
  let fetched :=
    if use_api then
      match use_graphql_api net self with
      | (self, Ok count) =>
          if 0 <? count then (self, Ok tt) else scrape_html net self
      | (self, Raise e) => (self, Raise e)
      end
    else scrape_html net self in
  match fetched with
  | (self, Ok _) => (persist self, Ok tt)
  | (self, Raise e) => (self, Raise e)
  end.






End AniList.

(** ** The workbook artifact: [DataFrame.to_excel] and [pd.read_excel] *)

Module Excel.

(** A Python value in a record handed to [jsonify]. *)
Inductive value : Type :=
| Str (s : string)
| PyNone
| NaN.

Definition of_option (v : option string) : value :=
  match v with Some s => Str s | None => PyNone end.

(** A record as a dict, keys in insertion order. *)
Definition record : Type := list (string * value).

(** A worksheet: the header row and the data rows; a cell holds a
    string or is blank. *)
Record Sheet : Type := mkSheet {
  columns : list string;
  rows : list (list (option string))
}.

Definition Workbook : Type := list (string * Sheet).

Definition news_columns : list string := ["Media"; "Headline"; "Image"; "URL"].
Definition book_columns : list string := ["Judul"; "Penerbit"; "Harga"; "Image URL"].

Definition news_dict (r : NewsRecord) : record :=
  [("Media", Str (Media r)); ("Headline", Str (Headline r));
   ("Image", Str (Image r)); ("URL", Str (URL r))].

Definition book_dict (b : BookRecord) : record :=
  [("Judul", of_option (Judul b)); ("Penerbit", of_option (Penerbit b));
   ("Harga", of_option (Harga b)); ("Image URL", of_option (Image_URL b))].

(** [pd.DataFrame(news_data).to_excel(...)]: a frame built from no
    record has no column. *)
Definition news_sheet (news_data : list NewsRecord) : Sheet :=
  match news_data with
  | [] => mkSheet [] []
  | _ => mkSheet news_columns
           (map (fun r => [Some (Media r); Some (Headline r); Some (Image r); Some (URL r)])
                news_data)
  end.

(** Lines 689-697 of [main]: the books, or the bare header. *)
Definition books_sheet (book_data : list BookRecord) : Sheet :=
  match book_data with
  | [] => mkSheet book_columns []
  | _ => mkSheet book_columns
           (map (fun b => [Judul b; Penerbit b; Harga b; Image_URL b]) book_data)
  end.

(** Lines 681-697: the workbook that [main] writes. *)
Definition write_workbook (news_data : list NewsRecord) (book_data : list BookRecord)
  : Workbook :=
  [("News Headlines", news_sheet news_data); ("Gramedia Books", books_sheet book_data)].

(** [pd.read_excel] is a library call.  The two readers of [app.py] pass
    no [na_values] and no [keep_default_na], so the library's default
    applies: a blank cell and every string cell equal to one of its
    default missing-value markers is read as NaN.  The markers are those
    listed in the documentation of [read_excel]; the conversion of a
    column of numerals to numbers is not modelled. *)
Definition default_na_values : list string :=
  [""; "#N/A"; "#N/A N/A"; "#NA"; "-1.#IND"; "-1.#QNAN"; "-NaN"; "-nan";
   "1.#IND"; "1.#QNAN"; "<NA>"; "N/A"; "NA"; "NULL"; "NaN"; "None";
   "n/a"; "nan"; "null"].

Definition read_cell (c : option string) : value :=
  match c with
  | None => NaN
  | Some s => if existsb (String.eqb s) default_na_values then NaN else Str s
  end.

(** [pd.read_excel(path, sheet_name=...).to_dict(orient="records")] *)
Definition read_excel (wb : Workbook) (sheet_name : string) : result (list record) :=
  match Py.lookup wb sheet_name with
  | None => Raise (mkExn OtherException ("Worksheet named '" ++ sheet_name ++ "' not found"))
  | Some sheet => Ok (map (fun row => combine (columns sheet) (map read_cell row)) (rows sheet))
  end.

End Excel.

(** ** [app.py]: the cache gate of [/api/news] *)

Module App.

Record File : Type := mkFile {
  fname : string;
  mtime : Q;                     (* os.path.getmtime, seconds *)
  workbook : Excel.Workbook
}.

Inductive Response : Type :=
| Json (records : list Excel.record)          (* jsonify(...), 200 *)
| ServerError (msg : string).                 (* jsonify({"error": ...}), 500 *)

Definition Qlt_bool (x y : Q) : bool := negb (Qle_bool y x).

Definition excel_files (listing : list File) : list File :=
  filter (fun f => Py.endswith (fname f) ".xlsx") listing.

(** [sorted(files, key=getmtime, reverse=True)]: a stable sort, files of
    equal time keep their order in the listing. *)
Fixpoint insert_desc (f : File) (sorted : list File) : list File :=
  match sorted with
  | [] => [f]
  | g :: rest =>
      if Qle_bool (mtime g) (mtime f) then f :: g :: rest
      else g :: insert_desc f rest
  end.

Definition sorted_desc (files : list File) : list File :=
  fold_right insert_desc [] files.

Definition latest_file (listing : list File) : option File :=
  hd_error (sorted_desc (excel_files listing)).

Definition NEWS_TTL : Q := inject_Z 3600.

(** Lines 53-68: the fresh scrape of the endpoint. *)
Definition scrape_fresh (w : World) : M Response :=
  news_data <- news_loop (get_news w) NEWS_SOURCES [] ;;
  ret (Json (map Excel.news_dict news_data)).

(** [get_news_data] given the listing of [results/] and the clock. *)
Definition get_news_data (w : World) (listing : list File) (now : Q) : M Response :=
  try_except
    (match latest_file listing with
     | Some latest =>
         if Qlt_bool (now - mtime latest)%Q NEWS_TTL
         then (records <- pure_call (Excel.read_excel (workbook latest) "News Headlines") ;;
               ret (Json records))
         else scrape_fresh w
     | None => scrape_fresh w
     end)
    (fun e => ret (ServerError (exn_msg e))).

End App.

(** ** Vocabulary of the statements *)

(** A record that answers for the source [media_name], [url]. *)
Definition well_formed (media_name url : string) (r : NewsRecord) : Prop :=
  Media r = Py.capitalize media_name /\ URL r = url /\
  Headline r <> "" /\ Image r <> "".

(** Both required fields came out of the static cascades. *)
Definition static_complete (fields : option string * option string) : bool :=
  Py.truthy (fst fields) && Py.truthy (snd fields).

(** What the loop appended for a source: the fetcher's record, or the
    handler's record when the fetcher raised. *)
Definition appended (fetch : string -> string -> M NewsRecord)
    (s : Source) (r : NewsRecord) : Prop :=
  outcome (fetch (name s) (url s)) = Ok r \/
  exists e, outcome (fetch (name s) (url s)) = Raise e /\
            r = error_record (name s) (url s) e "Error".


(** A locator of the rendered cascades that gives nothing: no element,
    or an element whose extracted value is empty. *)
Definition no_headline_at (p : Page) (selector : string) : Prop :=
  (exists e, find_element p selector = Raise e /\ is_no_such_element e = true) \/
  (exists el, find_element p selector = Ok el /\ Py.strip (text el) = "").

Definition selenium_image_of (el : WebElement) : option string :=
  Py.or_ (get_attribute el "src") (get_attribute el "data-src").

Definition no_image_at (p : Page) (selector : string) : Prop :=
  (exists e, find_element p selector = Raise e /\ is_no_such_element e = true) \/
  (exists el, find_element p selector = Ok el /\ Py.truthy (selenium_image_of el) = false).

Definition static_image_of (t : Tag) : option string :=
  Py.or_ (tag_get t "src") (tag_get t "data-src").

Definition no_static_image_at (soup : Soup) (selector : string) : Prop :=
  select_one soup selector = None \/
  (exists t, select_one soup selector = Some t /\ Py.truthy (static_image_of t) = false).

(** ** Concrete documents and worlds *)

(** A front page of kompas whose first headline locator matches an
    element with blank text and whose second one matches the headline. *)
Definition soup_blank_first_match : Soup :=
  mkSoup
    (fun selector =>
       if String.eqb selector ".read__title" then Some (mkTag [] ["  "])
       else if String.eqb selector ".headline__title"
            then Some (mkTag [] [" Banjir di Jakarta "])
            else None)
    "<html></html>".






Definition connection_refused : exn :=
  mkExn RequestException "Connection refused".

(** No network at all: the static request is refused and the browser
    reports [msg] when asked to load a page. *)
Definition world_offline (msg : string) : World :=
  mkWorld (fun _ => Raise connection_refused)
          (fun _ _ => Ok tt)
          (fun _ => Ok tt)
          (fun _ => Raise (mkExn WebDriverException msg)).

Definition no_such_element : exn :=
  mkExn NoSuchElementException "no such element".

(** A page on which nothing is found. *)
Definition blank_page : Page :=
  mkPage (fun _ => Raise no_such_element)
         (fun _ => Ok [])
         "<html></html>"
         (fun _ => Ok tt)
         (fun _ => Raise (mkExn TimeoutException "timeout"))
         (fun _ => 1080%Z).

(** The static request is refused; the browser loads a blank page. *)
Definition world_blank : World :=
  mkWorld (fun _ => Raise connection_refused)
          (fun _ _ => Ok tt)
          (fun _ => Ok tt)
          (fun _ => Ok blank_page).

(** A results directory with an older and a newer workbook, and a file
    that is not a workbook. *)
Definition cached_record : NewsRecord :=
  mkNews "Kompas" "Banjir di Jakarta" "https://asset.kompas.com/banjir.jpg"
         "https://www.kompas.com/".

Definition older_workbook : App.File :=
  App.mkFile "web_scraping_results_20240101_080000.xlsx" (inject_Z 1000)
             (Excel.write_workbook [] []).

Definition newer_workbook : App.File :=
  App.mkFile "web_scraping_results_20240101_090000.xlsx" (inject_Z 5000)
             (Excel.write_workbook [cached_record] []).

Definition results_listing : list App.File :=
  [ older_workbook;
    App.mkFile "anilist_trending_anime.json" (inject_Z 9000) [];
    newer_workbook ].

(** The wait for the product cards lets the run go on: the cards are
    there, or the wait times out and the screenshot is taken. *)
Definition wait_passes (p : Page) : Prop :=
  wait_until_present p "div.ProductCard_cardContent__fawWr, div.product-card" = Ok tt \/
  (exists e, wait_until_present p "div.ProductCard_cardContent__fawWr, div.product-card"
               = Raise e /\
             is_timeout e = true /\
             save_screenshot p (DEBUG_DIR_screenshots ++ "/timeout_error.png") = Ok tt).

Definition leaf (text : string) (attrs : list (string * string)) : WebElement :=
  mkElem text attrs (fun _ => Raise no_such_element).

(** A product card whose cover image is lazy-loaded (the element has no
    [src] yet) and whose price element is still blank. *)
Definition lazy_card : WebElement :=
  mkElem "" []
    (fun sel =>
       if String.eqb sel "img.object-contain"
       then Ok (leaf "" [("class", "object-contain");
                         ("data-src", "https://cdn.gramedia.com/atomic-habits.jpg")])
       else if String.eqb sel "h2.text-neutral-700" then Ok (leaf "Atomic Habits" [])
       else if String.eqb sel "div.text-neutral-500" then Ok (leaf "James Clear" [])
       else if String.eqb sel "div.text-s-extrabold" then Ok (leaf "  " [])
       else Raise no_such_element).

(** A book of which only the title was resolved. *)
Definition title_only_book : BookRecord :=
  mkBook (Some "Atomic Habits") (Some NA) (Some NA) (Some NA).

(** Two trending titles as the GraphQL endpoint reports them. *)
Definition frieren : AniList.MediaItem :=
  AniList.Media (Some "Sousou no Frieren") (Some "Frieren") None
                (Some "https://s4.anilist.co/frieren-large.jpg") None.

Definition dandadan : AniList.MediaItem :=
  AniList.Media (Some "Dandadan") None None
                None (Some "https://s4.anilist.co/dandadan-medium.jpg").

Definition listing_card : AniList.Card :=
  AniList.mkCard (Some (mkTag [("src", "//s4.anilist.co/one-piece.jpg")] []))
                 (Some (mkTag [] [" One Piece "])).

(** The endpoint answers with one title. *)
Definition net_one : AniList.Net :=
  AniList.mkNet (Ok (Some [frieren])) (Ok [listing_card]).

(** The endpoint answers with a second title. *)
Definition net_two : AniList.Net :=
  AniList.mkNet (Ok (Some [dandadan])) (Ok [listing_card]).


(** A fresh instance after its first [run()], with the log of its
    requests cleared. *)
Definition after_first_run : AniList.State :=
  let s := fst (AniList.run net_one true (AniList.init None None)) in
  AniList.mkState (AniList.results s) (AniList.json_file s) (AniList.csv_file s) [].

(** A front page of kompas that the static path resolves: the second
    headline locator matches, the first image locator matches a
    lazy-loaded image. *)
Definition kompas_front_page : Soup :=
  mkSoup
    (fun selector =>
       if String.eqb selector ".headline__title"
       then Some (mkTag [("class", "headline__title")] ["  Banjir di Jakarta "; "  "])
       else if String.eqb selector ".photo__wrap img"
            then Some (mkTag [("data-src", "https://asset.kompas.com/banjir.jpg")] [])
            else None)
    "<html>kompas</html>".

(** The static fetch works everywhere; no browser can be started. *)
Definition world_static_ok : World :=
  mkWorld (fun _ => Ok kompas_front_page)
          (fun _ _ => Ok tt)
          (fun _ => Raise (mkExn WebDriverException "chromedriver not found"))
          (fun _ => Raise (mkExn WebDriverException "no session")).

(** A page that settles after the third scroll, and one that grows at
    every scroll. *)
Definition settling_heights (k : nat) : Z :=
  if k <? 2 then (1000 * Z.of_nat (S k))%Z else 3000%Z.

Definition growing_heights (k : nat) : Z := (1000 * Z.of_nat (S k))%Z.

(** ** More of [app.py]: the other endpoints *)

Module Api.

Definition BOOKS_TTL : Q := inject_Z 7200.
Definition ANIME_TTL : Q := inject_Z 10800.

(** Lines 98-100: the fresh scrape of [/api/books]. *)
Definition scrape_books (w : World) : M App.Response :=
  book_data <- get_international_books w ;;
  ret (App.Json (map Excel.book_dict book_data)).

(** [get_books_data] given the listing of [results/] and the clock. *)
Definition get_books_data (w : World) (listing : list App.File) (now : Q)
  : M App.Response :=
  try_except
    (match App.latest_file listing with
     | Some latest =>
         if App.Qlt_bool (now - App.mtime latest)%Q BOOKS_TTL
         then (records <- pure_call (Excel.read_excel (App.workbook latest) "Gramedia Books") ;;
               ret (App.Json records))
         else scrape_books w
     | None => scrape_books w
     end)
    (fun e => ret (App.ServerError (exn_msg e))).

(** [results/anilist_trending_anime.json] when it exists. *)
Record JsonFile : Type := mkJsonFile {
  json_mtime : Q;
  json_content : list AniList.Entry
}.

(** An entry as the dict that [json.load] gives back. *)
Definition entry_dict (e : AniList.Entry) : Excel.record :=
  [("title", Excel.of_option (AniList.title e));
   ("image", Excel.of_option (AniList.image e));
   ("tag", Excel.of_option (AniList.tag e))].

Definition json_response (entries : list AniList.Entry) : App.Response :=
  App.Json (map entry_dict entries).

(** Lines 124-134: a new scraper is run, then the JSON file is read if
    there is one, whoever wrote it. *)
Definition refresh_anime (net : AniList.Net) (json : option JsonFile)
    (csv : option (list (list string))) : list AniList.Call * App.Response :=
  match AniList.run net true (AniList.init (option_map json_content json) csv) with
  | (scraper, Ok _) =>
      (AniList.calls scraper,
       match AniList.json_file scraper with
       | Some anime_data => json_response anime_data
       | None => App.Json []
       end)
  | (scraper, Raise e) => (AniList.calls scraper, App.ServerError (exn_msg e))
  end.

(** [get_anime_data]: the requests it caused and its answer. *)
Definition get_anime_data (net : AniList.Net) (json : option JsonFile)
    (csv : option (list (list string))) (now : Q)
  : list AniList.Call * App.Response :=
  match json with
  | Some file =>
      if App.Qlt_bool (now - json_mtime file)%Q ANIME_TTL
      then ([], json_response (json_content file))
      else refresh_anime net json csv
  | None => refresh_anime net json csv
  end.

(** The payload of [/api/status]. *)
Record Status : Type := mkStatus {
  news_available : bool;
  books_available : bool;
  anime_available : bool;
  last_update : option Q
}.

Definition get_status (listing : list App.File) (anime_file_exists : bool) : Status :=
  let excel_files := App.excel_files listing in
  mkStatus (0 <? length excel_files) (0 <? length excel_files) anime_file_exists
           (option_map App.mtime (hd_error (App.sorted_desc excel_files))).

End Api.

(** ** More vocabulary *)

Definition is_quit (ev : event) : bool :=
  match ev with EvQuit => true | _ => false end.

Definition is_request (ev : event) : bool :=
  match ev with EvRequest _ => true | _ => false end.

Definition is_write (ev : event) : bool :=
  match ev with EvWrite _ _ => true | _ => false end.

(** How many events of a kind a run caused. *)
Definition count (kind : event -> bool) (t : list event) : nat :=
  length (filter kind t).

(** A selector of a catalog field that gives nothing for the kind [t]. *)
Definition no_field_at (book : WebElement) (t : element_type) (sel : string) : Prop :=
  (exists e, elem_find_element book sel = Raise e /\ is_no_such_element e = true) \/
  (exists el, elem_find_element book sel = Ok el /\ Py.truthy (extract t el) = false).

Definition tag_is_title (e : AniList.Entry) : Prop := AniList.tag e = AniList.title e.

(** ** More concrete inputs *)

(** The HTML dump cannot be written. *)
Definition world_disk_full : World :=
  mkWorld (fun _ => Ok kompas_front_page)
          (fun _ _ => Raise (mkExn OtherException "No space left on device"))
          (fun _ => Ok tt)
          (fun _ => Ok blank_page).

(** A rendered front page: the first headline locator of kompas matches
    a blank element, the third one the headline; one image locator
    matches a lazy-loaded image. *)
Definition rendered_front_page : Page :=
  mkPage
    (fun selector =>
       if String.eqb selector ".read__title" then Ok (leaf "   " [])
       else if String.eqb selector ".most__title" then Ok (leaf " Banjir di Jakarta " [])
       else if String.eqb selector ".headline__thumb img"
            then Ok (leaf "" [("src", ""); ("data-src", "https://asset.kompas.com/banjir.jpg")])
            else Raise no_such_element)
    (fun _ => Ok [])
    "<html>kompas</html>"
    (fun _ => Ok tt)
    (fun _ => Ok tt)
    (fun _ => 1080%Z).

(** A page where only the generic searches find something. *)
Definition generic_page : Page :=
  mkPage
    (fun _ => Raise no_such_element)
    (fun selector =>
       if String.eqb selector "h1, h2, .title"
       then Ok [leaf " Berita Utama " []; leaf "Lainnya" []]
       else if String.eqb selector "img"
            then Ok [leaf "" [("src", "https://cdn.example.com/pixel.gif")];
                     leaf "" [("src", "https://cdn.example.com/foto.jpeg")]]
            else Ok [])
    "<html></html>"
    (fun _ => Ok tt)
    (fun _ => Ok tt)
    (fun _ => 1080%Z).

Definition world_generic : World :=
  mkWorld (fun _ => Raise connection_refused)
          (fun _ _ => Ok tt)
          (fun _ => Ok tt)
          (fun _ => Ok generic_page).

(** A product card on which every lookup fails with a stale element. *)
Definition stale_card : WebElement :=
  mkElem "" [] (fun _ => Raise (mkExn WebDriverException "stale element reference")).

(** A product card with nothing the selectors know. *)
Definition bare_card : WebElement := leaf "" [].

(** The catalog page: nothing under the first container selector, two
    cards under the second. *)
Definition catalog_page : Page :=
  mkPage
    (fun _ => Raise no_such_element)
    (fun selector =>
       if String.eqb selector "div.product-card" then Ok [lazy_card; stale_card]
       else if String.eqb selector "div.product-item" then Ok [bare_card]
       else Ok [])
    "<html>gramedia</html>"
    (fun _ => Ok tt)
    (fun _ => Ok tt)
    (fun k => if k <? 1 then 1000%Z else 2000%Z).

Definition world_catalog : World :=
  mkWorld (fun _ => Raise connection_refused)
          (fun _ _ => Ok tt)
          (fun _ => Ok tt)
          (fun _ => Ok catalog_page).

(** A response whose second element is malformed. *)
Definition net_malformed : AniList.Net :=
  AniList.mkNet
    (Ok (Some [dandadan; AniList.BadMedia (mkExn OtherException "'NoneType' object is not subscriptable");
               frieren]))
    (Ok [listing_card]).

(** Neither the endpoint nor the listing page can be reached. *)
Definition net_down : AniList.Net :=
  AniList.mkNet (Raise connection_refused) (Raise connection_refused).

Definition stale_json : Api.JsonFile :=
  Api.mkJsonFile (inject_Z 1000)
    [AniList.mkEntry (Some "One Piece") (Some "https://s4.anilist.co/one-piece.jpg")
                     (Some "One Piece")].

(** A workbook that some other tool left in [results/]. *)
Definition foreign_workbook : App.File :=
  App.mkFile "inventory.xlsx" (inject_Z 6000)
             [("Sheet1", Excel.mkSheet ["a"] [[Some "1"]])].

(** An event that is neither a request, nor a browser start, nor a
    browser shutdown. *)
Definition is_other (ev : event) : bool :=
  negb (is_request ev || is_chrome ev || is_quit ev).

(** The discipline of one fetch, read off its events: one request, at
    most one browser, which is shut down once and last if it started. *)
Definition lifecycle (browser_started : bool) (t : list event) : Prop :=
  count is_request t = 1 /\
  count is_chrome t = (if existsb is_chrome t then 1 else 0) /\
  count is_quit t
    = (if existsb is_chrome t then (if browser_started then 1 else 0) else 0) /\
  (count is_quit t = 1 -> exists before, t = (before ++ [EvQuit])%list).

Definition started (r : result unit) : bool :=
  match r with Ok _ => true | Raise _ => false end.


(** ** The acquisition loop of [main], with its console output *)

Definition newline : string := String (ascii_of_nat 10) EmptyString.

(** [str(n)] of a length. *)
Definition str_of_nat (n : nat) : string := NilEmpty.string_of_uint (Nat.to_uint n).

(** The line of lines 659-661:
    [f"Scraped {source['name'].capitalize()}: {result['Headline'][:80]}..."]. *)
Definition scraped_line (source : Source) (result : NewsRecord) : string :=
  "Scraped " ++ Py.capitalize (name source) ++ ": "
  ++ substring 0 80 (Headline result) ++ "...".

(** Lines 653-671 of [main.py].  Inside the [try] the record is appended
    first and the line is printed after it: when the console raises, the
    record is already in [news_data] and the handler appends its own
    record for the same source behind it. *)
Fixpoint main_news_loop (fetch : string -> string -> M NewsRecord)
    (print : string -> result unit)
    (sources : list Source) (news_data : list NewsRecord)
  : M (list NewsRecord) :=
  match sources with
  | [] => ret news_data
  | source :: rest =>
      news_data <-
        match fetch (name source) (url source) with
        | (t, Ok result) =>
            let news_data := (news_data ++ [result])%list in
            match print (scraped_line source result) with
            | Ok _ => (t, Ok news_data)
            | Raise e =>
                (t, Ok (news_data ++ [error_record (name source) (url source) e "Error"])%list)
            end
        | (t, Raise e) =>
            (t, Ok (news_data ++ [error_record (name source) (url source) e "Error"])%list)
        end ;;
      main_news_loop fetch print rest news_data
  end.

Definition main_scrape_news (w : World) (print : string -> result unit)
  : M (list NewsRecord) :=
  main_news_loop (get_news w) print NEWS_SOURCES [].

(** ** [main] and the forced refresh of [app.py] *)

Module Pipeline.

(** What a whole run leaves behind: its events, the workbook it saved
    and the trending scraper it ran, if it got that far. *)
Record Run : Type := mkRun {
  events : list event;
  workbook : option Excel.Workbook;
  anime : option (AniList.State * result unit)
}.

(** The six lines that [main] prints between the save and the trending
    scraper (lines 701-710). *)
Definition report_lines (excel_filename log_filename : string)
    (news_data : list NewsRecord) (book_data : list BookRecord) : list string :=
  [ newline ++ "Scraped data successfully saved to: " ++ excel_filename;
    "Log file created at: " ++ log_filename;
    newline ++ "Scraping Summary:";
    "- News headlines: " ++ str_of_nat (length news_data) ++ " items";
    "- Gramedia books: " ++ str_of_nat (length book_data) ++ " items";
    newline ++ "Starting AniList scraping..." ].

(** One [print] after the other, until one raises. *)
Fixpoint print_all (print : string -> result unit) (lines : list string) : result unit :=
  match lines with
  | [] => Ok tt
  | line :: rest => rbind (print line) (fun _ => print_all print rest)
  end.

(** What reading [log_filename] raises in the handler when
    [setup_logging] did not return. *)
Definition unbound_log_filename : exn :=
  mkExn OtherException "local variable 'log_filename' referenced before assignment".

(** Lines 714-717: the handler of [main]; it prints twice and may itself
    raise. *)
Definition main_handler (print : string -> result unit) (log_filename : option string)
    (e : exn) : result unit :=
  rbind (print ("An error occurred: " ++ exn_msg e)) (fun _ =>
    match log_filename with
    | Some log_filename => print ("Check log file for details: " ++ log_filename)
    | None => Raise unbound_log_filename
    end).

(** Lines 644-717 of [main.py].  [setup_logging] is the outcome of the
    call of line 645, [timestamp] the formatted clock of line 648,
    [print] the console and [save] the [pd.ExcelWriter] block (whether
    the workbook can be written to [results/]).  Any exception inside the
    [try] ends the run in the handler of line 714.  The result is what
    the run left behind and how [main] itself ended. *)
Definition main (w : World) (net : AniList.Net)
    (setup_logging : result string) (timestamp : string)
    (print : string -> result unit)
    (save : Excel.Workbook -> result unit)
    (json : option (list AniList.Entry)) (csv : option (list (list string)))
  : Run * result unit :=
  match setup_logging with
  | Raise e => (mkRun [] None None, main_handler print None e)
  | Ok log_filename =>
      let handler := main_handler print (Some log_filename) in
      match main_news_loop (get_news w) print NEWS_SOURCES [] with
      | (t1, Raise e) => (mkRun t1 None None, handler e)
      | (t1, Ok news_data) =>
          match get_international_books w with
          | (t2, Raise e) => (mkRun (t1 ++ t2) None None, handler e)
          | (t2, Ok book_data) =>
              let excel_filename :=
                "results/web_scraping_results_" ++ timestamp ++ ".xlsx" in
              let wb := Excel.write_workbook news_data book_data in
              match save wb with
              | Raise e => (mkRun (t1 ++ t2) None None, handler e)
              | Ok _ =>
                  match print_all print
                          (report_lines excel_filename log_filename news_data book_data) with
                  | Raise e => (mkRun (t1 ++ t2) (Some wb) None, handler e)
                  | Ok _ =>
                      let scraped := AniList.run net true (AniList.init json csv) in
                      (mkRun (t1 ++ t2) (Some wb) (Some scraped),
                       match snd scraped with
                       | Ok _ => Ok tt
                       | Raise e => handler e
                       end)
                  end
              end
          end
      end
  end.

(** The answer of [/api/scrape-all]. *)
Inductive Refresh : Type :=
| Refreshed (news_count books_count anime_count : nat)
| RefreshError (msg : string).

(** [pd.DataFrame(book_data).to_excel(...)] of line 171: no header-only
    branch here, a frame built from no record has no column. *)
Definition books_frame (book_data : list BookRecord) : Excel.Sheet :=
  match book_data with
  | [] => Excel.mkSheet [] []
  | _ => Excel.mkSheet Excel.book_columns
           (map (fun b => [Judul b; Penerbit b; Harga b; Image_URL b]) book_data)
  end.

Definition refresh_workbook (news_data : list NewsRecord) (book_data : list BookRecord)
  : Excel.Workbook :=
  [("News Headlines", Excel.news_sheet news_data); ("Gramedia Books", books_frame book_data)].

(** Lines 141-187 of [app.py]. *)
Definition scrape_all (w : World) (net : AniList.Net)
    (save : Excel.Workbook -> result unit)
    (json : option (list AniList.Entry)) (csv : option (list (list string)))
  : Run * Refresh :=
  match news_loop (get_news w) NEWS_SOURCES [] with
  | (t1, Raise e) => (mkRun t1 None None, RefreshError (exn_msg e))
  | (t1, Ok news_data) =>
      match get_international_books w with
      | (t2, Raise e) => (mkRun (t1 ++ t2) None None, RefreshError (exn_msg e))
      | (t2, Ok book_data) =>
          let wb := refresh_workbook news_data book_data in
          match save wb with
          | Raise e => (mkRun (t1 ++ t2) None None, RefreshError (exn_msg e))
          | Ok _ =>
              let scraped := AniList.run net true (AniList.init json csv) in
              (mkRun (t1 ++ t2) (Some wb) (Some scraped),
               match snd scraped with
               | Ok _ => Refreshed (length news_data) (length book_data)
                                   (length (AniList.results (fst scraped)))
               | Raise e => RefreshError (exn_msg e)
               end)
          end
      end
  end.

End Pipeline.

(** The rows of the news sheet name the configured sources, in order. *)
Definition news_rows_follow_sources (wb : Excel.Workbook) : Prop :=
  exists sheet,
    Py.lookup wb "News Headlines" = Some sheet /\
    Excel.columns sheet = ["Media"; "Headline"; "Image"; "URL"] /\
    Forall2 (fun s row =>
               exists headline image,
                 row = [Some (Py.capitalize (name s)); Some headline; Some image;
                        Some (url s)] /\
                 headline <> "" /\ image <> "")
            NEWS_SOURCES (Excel.rows sheet).

(** The disk takes every workbook. *)
Definition save_ok (wb : Excel.Workbook) : result unit := Ok tt.

(** The disk is full. *)
Definition save_fails (wb : Excel.Workbook) : result unit :=
  Raise (mkExn OtherException "No space left on device").



(** A console that takes every line. *)
Definition quiet_print (line : string) : result unit := Ok tt.

Definition is_ascii (c : ascii) : bool := nat_of_ascii c <? 128.

Fixpoint all_ascii (s : string) : bool :=
  match s with
  | EmptyString => true
  | String c r => is_ascii c && all_ascii r
  end.

(** A console whose encoding is ASCII: a line with any other character
    raises [UnicodeEncodeError]. *)
Definition ascii_console (line : string) : result unit :=
  if all_ascii line then Ok tt
  else Raise (mkExn OtherException
                "'ascii' codec can't encode character: ordinal not in range(128)").

(** The UTF-8 bytes of U+2192, a rightwards arrow. *)
Definition arrow : string :=
  String (ascii_of_nat 226) (String (ascii_of_nat 134) (String (ascii_of_nat 146) EmptyString)).

Definition detik_headline : string := "Timnas U-23 menang 3" ++ arrow ++ "1".

(** The front page of detik, resolved by the static path; its headline
    holds a character outside ASCII. *)
Definition detik_front_page : Soup :=
  mkSoup
    (fun selector =>
       if String.eqb selector ".detail__title" then Some (mkTag [] [detik_headline])
       else if String.eqb selector ".detail__img-wrap img"
            then Some (mkTag [("src", "https://akcdn.detik.net.id/timnas.jpg")] [])
            else None)
    "<html>detik</html>".

(** detik answers the static request; the other sources refuse it and
    show a blank page in the browser. *)
Definition world_detik : World :=
  mkWorld (fun url => if String.eqb url "https://www.detik.com/"
                      then Ok detik_front_page else Raise connection_refused)
          (fun _ _ => Ok tt)
          (fun _ => Ok tt)
          (fun _ => Ok blank_page).

(** What that console does with the line of detik and with the others. *)
Definition print_outcomes_on_detik : Prop :=
  (exists e,
     ascii_console
       (scraped_line (mkSource "detik" "https://www.detik.com/")
          (mkNews "Detik" detik_headline "https://akcdn.detik.net.id/timnas.jpg"
                  "https://www.detik.com/")) = Raise e) /\
  ascii_console
    (scraped_line (mkSource "kompas" "https://www.kompas.com/")
       (mkNews "Kompas" HEADLINE_NOT_FOUND IMAGE_NOT_FOUND "https://www.kompas.com/"))
  = Ok tt.

(** A console that was closed: every line raises. *)
Definition closed_console (line : string) : result unit :=
  Raise (mkExn OtherException "[Errno 32] Broken pipe").

(** * Properties *)

(** ** Strings *)

Lemma or_default_nonempty (a : option string) (d : string) :
  d <> "" -> Py.or_default a d <> "".
Proof.
  intros Hd. destruct a as [s|]; simpl; [|exact Hd].
  destruct s; simpl; [exact Hd|discriminate].
Qed.

Lemma or_default_truthy (a : option string) (d : string) :
  Py.truthy a = true -> Some (Py.or_default a d) = a.
Proof.
  destruct a as [s|]; simpl; [|discriminate].
  destruct s; simpl; [discriminate|reflexivity].
Qed.

Lemma capitalize_nonempty (s : string) : s <> "" -> Py.capitalize s <> "".
Proof. destruct s; simpl; [intros H; now elim H|discriminate]. Qed.

(** ** The news records are always well formed *)

Lemma news_record_well_formed media_name url h i :
  well_formed media_name url (news_record media_name url h i).
Proof.
  repeat split; simpl; apply or_default_nonempty; discriminate.
Qed.

Lemma error_record_well_formed media_name url e image :
  image <> "" -> well_formed media_name url (error_record media_name url e image).
Proof. intros Hi. repeat split; simpl; [discriminate|exact Hi]. Qed.

Create HintDb news.
#[local] Hint Resolve news_record_well_formed error_record_well_formed : news.

(** The rendered path never lets an exception out: it answers with a
    record whatever the browser does. *)
Lemma get_news_with_selenium_returns (w : World) (media_name url : string) :
  exists r, outcome (get_news_with_selenium w media_name url) = Ok r /\
            well_formed media_name url r.
Proof.
  unfold get_news_with_selenium, finally_, try_except, outcome, call, pure_call, bind, ret.
  destruct (create_chrome_driver w url) as [[]|e0]; simpl.
  2:{ eexists; split; [reflexivity|]. apply error_record_well_formed; discriminate. }
  destruct (driver_get w url) as [page|e1]; simpl.
  2:{ eexists; split; [reflexivity|]. apply error_record_well_formed; discriminate. }
  destruct (save_screenshot page _) as [[]|e2]; simpl.
  2:{ eexists; split; [reflexivity|]. apply error_record_well_formed; discriminate. }
  destruct (selenium_extract page media_name) as [fields|e3]; simpl.
  2:{ eexists; split; [reflexivity|]. apply error_record_well_formed; discriminate. }
  eexists; split; [reflexivity|]. apply news_record_well_formed.
Qed.

Lemma get_news_with_selenium_starts_chrome (w : World) (media_name url : string) :
  exists t, trace (get_news_with_selenium w media_name url) = EvChrome :: t.
Proof.
  unfold get_news_with_selenium, finally_, try_except, trace, call, pure_call, bind, ret.
  destruct (create_chrome_driver w url) as [[]|e0]; simpl; [|eexists; reflexivity].
  destruct (driver_get w url) as [page|e1]; simpl; [|eexists; reflexivity].
  destruct (save_screenshot page _) as [[]|e2]; simpl; [|eexists; reflexivity].
  destruct (selenium_extract page media_name) as [fields|e3]; simpl; eexists; reflexivity.
Qed.

(** ** The static path and the escalation *)

Lemma static_attempt_no_chrome (w : World) (media_name url : string) :
  existsb is_chrome (trace (static_attempt w media_name url)) = false.
Proof.
  unfold static_attempt, write_file, trace, call, bind, tell, raise, ret.
  destruct (requests_get w url) as [soup|e]; simpl; [|reflexivity].
  destruct (fs_write w _ _) as [[]|e]; reflexivity.
Qed.

(** [get_news], one equation per way the static attempt can end. *)
Lemma get_news_complete w media_name url t fields :
  static_attempt w media_name url = (t, Ok fields) ->
  static_complete fields = true ->
  get_news w media_name url =
    (t, Ok (news_record media_name url (fst fields) (snd fields))).
Proof.
  intros Hs Hc. unfold get_news. rewrite Hs. unfold static_complete in Hc.
  apply andb_true_iff in Hc as [Hh Hi].
  unfold bind, try_except. rewrite Hh, Hi. simpl. now rewrite app_nil_r.
Qed.

Lemma get_news_incomplete w media_name url t fields :
  static_attempt w media_name url = (t, Ok fields) ->
  static_complete fields = false ->
  get_news w media_name url =
    ((t ++ trace (get_news_with_selenium w media_name url))%list,
     outcome (get_news_with_selenium w media_name url)).
Proof.
  intros Hs Hc. unfold get_news. rewrite Hs. unfold static_complete in Hc.
  destruct (get_news_with_selenium_returns w media_name url) as (r & Hr & _).
  unfold bind, try_except.
  replace (negb (Py.truthy (fst fields)) || negb (Py.truthy (snd fields))) with true
    by (destruct (Py.truthy (fst fields)), (Py.truthy (snd fields));
        simpl in *; congruence).
  destruct (get_news_with_selenium w media_name url) as [t' o]; simpl in *.
  subst o. reflexivity.
Qed.

Lemma get_news_transport_error w media_name url t e :
  static_attempt w media_name url = (t, Raise e) ->
  is_request_exception e = true ->
  get_news w media_name url =
    ((t ++ trace (get_news_with_selenium w media_name url))%list,
     outcome (get_news_with_selenium w media_name url)).
Proof.
  intros Hs He. unfold get_news. rewrite Hs. unfold bind, try_except.
  rewrite He. now destruct (get_news_with_selenium w media_name url).
Qed.

Lemma get_news_other_error w media_name url t e :
  static_attempt w media_name url = (t, Raise e) ->
  is_request_exception e = false ->
  get_news w media_name url = (t, Ok (error_record media_name url e "N/A")).
Proof.
  intros Hs He. unfold get_news. rewrite Hs. unfold bind, try_except.
  rewrite He. simpl. now rewrite app_nil_r.
Qed.

Lemma get_news_returns (w : World) (media_name url : string) :
  exists r, outcome (get_news w media_name url) = Ok r /\
            well_formed media_name url r.
Proof.
  destruct (static_attempt w media_name url) as [t [fields|e]] eqn:Hs.
  - destruct (static_complete fields) eqn:Hc.
    + rewrite (get_news_complete _ _ _ _ _ Hs Hc). eexists; split; [reflexivity|].
      auto with news.
    + rewrite (get_news_incomplete _ _ _ _ _ Hs Hc).
      apply get_news_with_selenium_returns.
  - destruct (is_request_exception e) eqn:He.
    + rewrite (get_news_transport_error _ _ _ _ _ Hs He).
      apply get_news_with_selenium_returns.
    + rewrite (get_news_other_error _ _ _ _ _ Hs He). eexists; split; [reflexivity|].
      apply error_record_well_formed; discriminate.
Qed.

(** ** The acquisition loop *)

Lemma outcome_bind_ok {A B} (m : M A) (k : A -> M B) (a : A) :
  outcome m = Ok a -> outcome (bind m k) = outcome (k a).
Proof.
  destruct m as [t o]; simpl; intros ->. unfold bind, outcome.
  now destruct (k a).
Qed.

Lemma trace_bind_ok {A B} (m : M A) (k : A -> M B) (a : A) :
  outcome m = Ok a -> trace (bind m k) = (trace m ++ trace (k a))%list.
Proof.
  destruct m as [t o]; simpl; intros ->. unfold bind, trace.
  now destruct (k a).
Qed.

(** Whatever the fetcher does for a source, returning or raising, the
    loop appends exactly one record for it and goes on. *)
Lemma news_loop_step (fetch : string -> string -> M NewsRecord)
    (source : Source) (news_data : list NewsRecord) :
  exists r,
    outcome
      (try_except
         (result <- fetch (name source) (url source) ;;
          ret (news_data ++ [result])%list)
         (fun e =>
            ret (news_data ++ [error_record (name source) (url source) e "Error"])%list))
    = Ok (news_data ++ [r])%list /\
    (outcome (fetch (name source) (url source)) = Ok r \/
     exists e, outcome (fetch (name source) (url source)) = Raise e /\
               r = error_record (name source) (url source) e "Error").
Proof.
  destruct (fetch (name source) (url source)) as [t [r|e]]; simpl.
  - exists r. split; [reflexivity|now left].
  - eexists. split; [reflexivity|]. right. now exists e.
Qed.

Lemma news_loop_records (fetch : string -> string -> M NewsRecord)
    (sources : list Source) :
  forall news_data, exists batch,
    outcome (news_loop fetch sources news_data) = Ok (news_data ++ batch)%list /\
    Forall2 (appended fetch) sources batch.
Proof.
  induction sources as [|source rest IH]; intros news_data.
  - exists []. simpl. rewrite app_nil_r. split; [reflexivity|constructor].
  - destruct (news_loop_step fetch source news_data) as (r & Hstep & Hr).
    destruct (IH (news_data ++ [r])%list) as (batch & Hloop & Hall).
    exists (r :: batch). split.
    + cbn [news_loop]. rewrite (outcome_bind_ok _ _ _ Hstep), Hloop.
      now rewrite <- app_assoc.
    + constructor; assumption.
Qed.

Lemma appended_get_news (w : World) (s : Source) (r : NewsRecord) :
  appended (get_news w) s r -> outcome (get_news w (name s) (url s)) = Ok r.
Proof.
  intros [Hok|(e & He & _)]; [exact Hok|].
  destruct (get_news_returns w (name s) (url s)) as (r' & Hr' & _). congruence.
Qed.

Lemma scrape_news_records (w : World) :
  exists batch,
    outcome (scrape_news w) = Ok batch /\
    Forall2 (fun s r => outcome (get_news w (name s) (url s)) = Ok r)
            NEWS_SOURCES batch.
Proof.
  destruct (news_loop_records (get_news w) NEWS_SOURCES []) as (batch & Hrun & Hall).
  exists batch. split; [exact Hrun|].
  eapply Forall2_impl; [|exact Hall]. intros s r. apply appended_get_news.
Qed.

(** The loop of the API endpoints over [NEWS_SOURCES] returns a batch
    with exactly one record per configured source, in the configured
    order (record k carries the capitalised name and the URL of source
    k), and the four fields of every record are non-empty strings,
    whatever the static and the rendered fetch did. *)
Theorem news_batch_one_nonempty_record_per_source (w : World) :
  exists batch,
    outcome (scrape_news w) = Ok batch /\
    Forall2 (fun s r => Media r = Py.capitalize (name s) /\ URL r = url s)
            NEWS_SOURCES batch /\
    Forall (fun r => Media r <> "" /\ Headline r <> "" /\
                     Image r <> "" /\ URL r <> "") batch.
Proof.
  destruct (scrape_news_records w) as (batch & Hrun & Hrec).
  assert (Hall : Forall2 (fun s r => well_formed (name s) (url s) r) NEWS_SOURCES batch).
  { eapply Forall2_impl; [|exact Hrec]. intros s r Hr.
    destruct (get_news_returns w (name s) (url s)) as (r' & Hr' & Hwf).
    rewrite Hr in Hr'. now inversion Hr'; subst. }
  clear Hrec.
  exists batch. split; [exact Hrun|].
  unfold NEWS_SOURCES in *.
  inversion Hall as [|s1 r1 l1 b1 (M1 & U1 & H1 & I1) Hall1]; subst.
  inversion Hall1 as [|s2 r2 l2 b2 (M2 & U2 & H2 & I2) Hall2]; subst.
  inversion Hall2 as [|s3 r3 l3 b3 (M3 & U3 & H3 & I3) Hall3]; subst.
  inversion Hall3; subst. simpl in *.
  split.
  - repeat constructor; assumption.
  - repeat constructor; try assumption;
      match goal with
      | |- Media _ <> _ => congruence
      | |- URL _ <> _ => congruence
      end.
Qed.



(** C1 (fails on the loop of [main]).  detik is resolved by the static
    path with a headline that holds a character outside ASCII, and the
    console can only encode ASCII.  The record of detik is appended, the
    [print] of line 659 raises, and the handler of line 662 appends a
    second record for detik: the batch of [main] has four records for
    the three configured sources.  The loop of the API endpoints, which
    prints nothing, returns three records in the same world. *)
Theorem main_batch_doubles_source_when_print_raises :
  length NEWS_SOURCES = 3 /\
  print_outcomes_on_detik /\
  outcome (main_scrape_news world_detik ascii_console)
  = Ok [ mkNews "Kompas" HEADLINE_NOT_FOUND IMAGE_NOT_FOUND "https://www.kompas.com/";
         mkNews "Detik" detik_headline "https://akcdn.detik.net.id/timnas.jpg"
                "https://www.detik.com/";
         mkNews "Detik"
                "Error: 'ascii' codec can't encode character: ordinal not in range(128)"
                "Error" "https://www.detik.com/";
         mkNews "Tribun" HEADLINE_NOT_FOUND IMAGE_NOT_FOUND "https://www.tribunnews.com/" ] /\
  outcome (scrape_news world_detik)
  = Ok [ mkNews "Kompas" HEADLINE_NOT_FOUND IMAGE_NOT_FOUND "https://www.kompas.com/";
         mkNews "Detik" detik_headline "https://akcdn.detik.net.id/timnas.jpg"
                "https://www.detik.com/";
         mkNews "Tribun" HEADLINE_NOT_FOUND IMAGE_NOT_FOUND "https://www.tribunnews.com/" ].
Proof.
  split; [reflexivity|]. split.
  - split; [eexists; reflexivity|reflexivity].
  - split; reflexivity.
Qed.

(** C2.  The rendered fetcher is started during [get_news] exactly when
    the static attempt raised a transport error or ran to the end and
    left the headline or the image unresolved (empty or [None]).  When
    the static attempt resolved both, the record is built from them and
    the browser is not started; after a transport error the answer of
    [get_news] is the answer of the rendered path. *)
Theorem rendered_path_iff_static_incomplete_or_transport_error
    (w : World) (media_name url : string) :
  (rendered_invoked (get_news w media_name url) = true <->
     (exists e, outcome (static_attempt w media_name url) = Raise e /\
                exn_cls e = RequestException) \/
     (exists fields, outcome (static_attempt w media_name url) = Ok fields /\
                (Py.truthy (fst fields) = false \/ Py.truthy (snd fields) = false))) /\
  (forall fields,
     outcome (static_attempt w media_name url) = Ok fields ->
     Py.truthy (fst fields) = true -> Py.truthy (snd fields) = true ->
     rendered_invoked (get_news w media_name url) = false /\
     outcome (get_news w media_name url) =
       Ok (mkNews (Py.capitalize media_name)
                  (Py.or_default (fst fields) HEADLINE_NOT_FOUND)
                  (Py.or_default (snd fields) IMAGE_NOT_FOUND) url)) /\
  (forall e,
     outcome (static_attempt w media_name url) = Raise e ->
     exn_cls e = RequestException ->
     rendered_invoked (get_news w media_name url) = true /\
     outcome (get_news w media_name url) =
       outcome (get_news_with_selenium w media_name url)).
Proof.
  pose proof (static_attempt_no_chrome w media_name url) as Hno.
  destruct (get_news_with_selenium_starts_chrome w media_name url) as (ts & Hts).
  unfold rendered_invoked.
  destruct (static_attempt w media_name url) as [t [fields|e]] eqn:Hs;
    unfold trace, outcome in *; simpl in Hno |- *.
  - destruct (static_complete fields) eqn:Hc.
    + rewrite (get_news_complete _ _ _ _ _ Hs Hc). simpl. rewrite Hno.
      unfold static_complete in Hc. apply andb_true_iff in Hc as [Hh Hi].
      split; [split|split].
      * discriminate.
      * intros [(e & He & _)|(f & Hf & Hor)]; [discriminate|].
        inversion Hf; subst f. destruct Hor; congruence.
      * intros f Hf _ _. inversion Hf; subst f. split; reflexivity.
      * intros e He; discriminate.
    + rewrite (get_news_incomplete _ _ _ _ _ Hs Hc). unfold trace, outcome; cbn [fst snd].
      rewrite Hts, existsb_app. simpl. rewrite orb_true_r.
      unfold static_complete in Hc. apply andb_false_iff in Hc.
      split; [split|split].
      * intros _. right. exists fields. split; [reflexivity|exact Hc].
      * reflexivity.
      * intros f Hf Hh Hi. inversion Hf; subst f. destruct Hc; congruence.
      * intros e He; discriminate.
  - destruct (is_request_exception e) eqn:He.
    + rewrite (get_news_transport_error _ _ _ _ _ Hs He). unfold trace, outcome; cbn [fst snd].
      rewrite Hts, existsb_app. simpl. rewrite orb_true_r.
      split; [split|split].
      * intros _. left. exists e. split; [reflexivity|].
        unfold is_request_exception in He. destruct (exn_cls e); congruence.
      * reflexivity.
      * intros f Hf; discriminate.
      * intros e' _ _. split; reflexivity.
    + rewrite (get_news_other_error _ _ _ _ _ Hs He). simpl. rewrite Hno.
      unfold is_request_exception in He.
      split; [split|split].
      * discriminate.
      * intros [(e' & He' & Hcls)|(f & Hf & _)]; [|discriminate].
        inversion He'; subst e'. rewrite Hcls in He. discriminate.
      * intros f Hf; discriminate.
      * intros e' He' Hcls. inversion He'; subst e'. rewrite Hcls in He. discriminate.
Qed.

(** ** The selector cascades *)

(** X1.  The rendered headline cascade returns the trimmed text of the
    first locator that gives a non-empty one; locators before it that
    match nothing or match blank text are passed over. *)
Lemma selenium_headline_first_nonempty (p : Page) (pre post : list string)
    (selector : string) (el : WebElement) (current : option string) :
  Forall (no_headline_at p) pre ->
  find_element p selector = Ok el ->
  Py.strip (text el) <> "" ->
  selenium_headline_loop p (pre ++ selector :: post) current
  = Ok (Some (Py.strip (text el))).
Proof.
  intros Hpre Hsel Hne. revert current.
  induction Hpre as [|s pre [(e & He & Hno)|(el' & Hel' & Hblank)] _ IH];
    intros current; simpl.
  - rewrite Hsel. destruct (Py.strip (text el)); [congruence|reflexivity].
  - rewrite He, Hno. apply IH.
  - rewrite Hel', Hblank. simpl. apply IH.
Qed.

(** X2.  The rendered image cascade returns the image of the first
    locator whose element has a non-empty [src] or, failing that, a
    non-empty [data-src]; locators before it that match nothing or an
    element with neither are passed over. *)
Lemma selenium_image_first_nonempty (p : Page) (pre post : list string)
    (selector : string) (el : WebElement) (current : option string) :
  Forall (no_image_at p) pre ->
  find_element p selector = Ok el ->
  Py.truthy (selenium_image_of el) = true ->
  selenium_image_loop p (pre ++ selector :: post) current = Ok (selenium_image_of el).
Proof.
  intros Hpre Hsel Hne. revert current.
  induction Hpre as [|s pre [(e & He & Hno)|(el' & Hel' & Hblank)] _ IH];
    intros current; simpl.
  - rewrite Hsel. fold (selenium_image_of el). now rewrite Hne.
  - rewrite He, Hno. apply IH.
  - rewrite Hel'. fold (selenium_image_of el'). rewrite Hblank. apply IH.
Qed.

(** X3.  The static image cascade does the same on the parsed page:
    the first locator whose element has a non-empty [src] or [data-src]
    gives the image. *)
Lemma static_image_first_nonempty (soup : Soup) (pre post : list string)
    (selector : string) (t : Tag) (current : option string) :
  Forall (no_static_image_at soup) pre ->
  select_one soup selector = Some t ->
  Py.truthy (static_image_of t) = true ->
  static_image_loop soup (pre ++ selector :: post) current = static_image_of t.
Proof.
  intros Hpre Hsel Hne. revert current.
  induction Hpre as [|s pre [Hnone|(t' & Ht' & Hblank)] _ IH];
    intros current; simpl.
  - rewrite Hsel. fold (static_image_of t). now rewrite Hne.
  - rewrite Hnone. apply IH.
  - rewrite Ht'. fold (static_image_of t'). rewrite Hblank. apply IH.
Qed.

(** X4.  The static headline cascade answers with the first locator
    that matches an element, with whatever text that element has. *)
Lemma static_headline_first_match (soup : Soup) (pre post : list string)
    (selector : string) (t : Tag) :
  Forall (fun s => select_one soup s = None) pre ->
  select_one soup selector = Some t ->
  static_headline_loop soup (pre ++ selector :: post) = Some (get_text_strip t).
Proof.
  intros Hpre Hsel.
  induction Hpre as [|s pre Hnone _ IH]; simpl.
  - now rewrite Hsel.
  - now rewrite Hnone.
Qed.

(** C3 (fails on the static headline cascade).  On a kompas page whose
    first headline locator matches an element with blank text and whose
    second locator matches the headline, the static cascade of [get_news]
    stops at the first locator and yields the empty string; the second
    locator, which yields a non-empty value, is never tried. *)
Theorem static_headline_cascade_stops_at_blank_match :
  (exists first, select_one soup_blank_first_match ".read__title" = Some first /\
                 get_text_strip first = "") /\
  (exists second, select_one soup_blank_first_match ".headline__title" = Some second /\
                  get_text_strip second = "Banjir di Jakarta") /\
  Py.lookup HEADLINE_SELECTORS "kompas"
    = Some [".read__title"; ".headline__title"; ".most__title"; ".trending__title"] /\
  static_headline soup_blank_first_match "kompas" = Some "".
Proof.
  repeat split; try (eexists; split; reflexivity); reflexivity.
Qed.

(** ** Failure of both fetchers *)

Lemma selenium_headline_loop_nothing (p : Page) (selectors : list string)
    (current : option string) :
  (forall selector, exists e,
      find_element p selector = Raise e /\ is_no_such_element e = true) ->
  selenium_headline_loop p selectors current = Ok current.
Proof.
  intros Hno. induction selectors as [|s rest IH]; simpl; [reflexivity|].
  destruct (Hno s) as (e & -> & ->). exact IH.
Qed.

Lemma selenium_image_loop_nothing (p : Page) (selectors : list string)
    (current : option string) :
  (forall selector, exists e,
      find_element p selector = Raise e /\ is_no_such_element e = true) ->
  selenium_image_loop p selectors current = Ok current.
Proof.
  intros Hno. induction selectors as [|s rest IH]; simpl; [reflexivity|].
  destruct (Hno s) as (e & -> & ->). exact IH.
Qed.









(** ** The scroll loop *)

Lemma scroll_loop_step (fuel : nat) (heights : nat -> Z) (last_height : Z) (c : nat) :
  c < max_scrolls ->
  scroll_loop (S fuel) heights last_height c =
    if Z.eqb (heights (S c)) last_height then Some (S c)
    else scroll_loop fuel heights (heights (S c)) (S c).
Proof.
  intros Hc. cbn [scroll_loop].
  destruct (Nat.ltb_spec c max_scrolls); [reflexivity|lia].
Qed.

Lemma scroll_loop_done (fuel : nat) (heights : nat -> Z) (last_height : Z) (c : nat) :
  max_scrolls <= c -> scroll_loop fuel heights last_height c = Some c.
Proof.
  intros Hc. destruct fuel; cbn [scroll_loop];
    destruct (Nat.ltb_spec c max_scrolls); try reflexivity; lia.
Qed.

(** With as much fuel as scrolls are left, the loop ends, between the
    current count and the cap. *)
Lemma scroll_loop_bounded (heights : nat -> Z) (fuel : nat) :
  forall (last_height : Z) (c : nat),
    c <= max_scrolls -> max_scrolls - c <= fuel ->
    exists n, scroll_loop fuel heights last_height c = Some n /\
              c <= n <= max_scrolls.
Proof.
  induction fuel as [|fuel IH]; intros last_height c Hc Hfuel.
  - exists c. rewrite scroll_loop_done by lia. split; [reflexivity|lia].
  - destruct (Nat.eq_dec c max_scrolls) as [->|Hne].
    + exists max_scrolls. rewrite scroll_loop_done by lia. split; [reflexivity|lia].
    + rewrite scroll_loop_step by lia.
      destruct (Z.eqb (heights (S c)) last_height).
      * exists (S c). split; [reflexivity|lia].
      * destruct (IH (heights (S c)) (S c)) as (n & Hn & Hb); try lia.
        exists n. split; [exact Hn|lia].
Qed.

(** The loop leaves at the first scroll that does not change the height. *)
Lemma scroll_loop_first_stable (heights : nat -> Z) (k : nat) (fuel : nat) :
  forall c,
    max_scrolls - c <= fuel -> c < k <= max_scrolls ->
    heights k = heights (k - 1) ->
    (forall j, c < j < k -> heights j <> heights (j - 1)) ->
    scroll_loop fuel heights (heights c) c = Some k.
Proof.
  induction fuel as [|fuel IH]; intros c Hfuel Hk Hstable Hbefore; [lia|].
  rewrite scroll_loop_step by lia.
  destruct (Nat.eq_dec (S c) k) as [<-|Hne].
  - replace (S c - 1) with c in Hstable by lia.
    rewrite Hstable, Z.eqb_refl. reflexivity.
  - assert (Hc : heights (S c) <> heights c).
    { specialize (Hbefore (S c)). replace (S c - 1) with c in Hbefore by lia.
      apply Hbefore. lia. }
    apply Z.eqb_neq in Hc. rewrite Hc.
    apply IH; try lia. intros j Hj. apply Hbefore. lia.
Qed.

Lemma scroll_loop_never_stable (heights : nat -> Z) (fuel : nat) :
  forall c,
    max_scrolls - c <= fuel -> c <= max_scrolls ->
    (forall j, c < j <= max_scrolls -> heights j <> heights (j - 1)) ->
    scroll_loop fuel heights (heights c) c = Some max_scrolls.
Proof.
  induction fuel as [|fuel IH]; intros c Hfuel Hc Hnever.
  - rewrite scroll_loop_done by lia. f_equal. lia.
  - destruct (Nat.eq_dec c max_scrolls) as [->|Hne].
    + now rewrite scroll_loop_done by lia.
    + rewrite scroll_loop_step by lia.
      assert (Hs : heights (S c) <> heights c).
      { specialize (Hnever (S c)). replace (S c - 1) with c in Hnever by lia.
        apply Hnever. lia. }
      apply Z.eqb_neq in Hs. rewrite Hs.
      apply IH; try lia. intros j Hj. apply Hnever. lia.
Qed.

(** C5.  For every sequence of observed page heights the scroll loop
    ends after at most 20 scrolls; it ends with the first scroll k after
    which the height equals the height before it; and when no scroll
    among the first 20 leaves the height unchanged it ends after exactly
    20 scrolls. *)
Theorem scroll_until_stable_capped (heights : nat -> Z) :
  max_scrolls = 20 /\
  (exists n, scroll_and_collect heights = Some n /\ n <= 20) /\
  (forall k, 1 <= k <= 20 ->
     heights k = heights (k - 1) ->
     (forall j, 1 <= j < k -> heights j <> heights (j - 1)) ->
     scroll_and_collect heights = Some k) /\
  ((forall j, 1 <= j <= 20 -> heights j <> heights (j - 1)) ->
   scroll_and_collect heights = Some 20).
Proof.
  split; [reflexivity|]. unfold scroll_and_collect.
  split; [|split].
  - destruct (scroll_loop_bounded heights max_scrolls (heights 0) 0) as (n & Hn & Hb);
      try lia.
    exists n. split; [exact Hn|]. change 20 with max_scrolls. lia.
  - intros k Hk Hstable Hbefore.
    apply scroll_loop_first_stable;
      [lia | change max_scrolls with 20; lia | exact Hstable |].
    intros j Hj. apply Hbefore. lia.
  - intros Hnever. change (Some 20) with (Some max_scrolls).
    apply scroll_loop_never_stable; try lia.
    intros j Hj. apply Hnever. change 20 with max_scrolls. lia.
Qed.

(** ** The cache gate of [/api/news] *)

Lemma Qlt_bool_true (x y : Q) : (x < y)%Q -> App.Qlt_bool x y = true.
Proof.
  intros Hlt. unfold App.Qlt_bool. destruct (Qle_bool y x) eqn:Hle; [|reflexivity].
  apply Qle_bool_iff in Hle. now apply Qlt_not_le in Hlt.
Qed.

Lemma Qlt_bool_false (x y : Q) : (y <= x)%Q -> App.Qlt_bool x y = false.
Proof.
  intros Hle. unfold App.Qlt_bool. apply Qle_bool_iff in Hle. now rewrite Hle.
Qed.

Lemma sorted_desc_empty (files : list App.File) :
  App.sorted_desc files = [] -> files = [].
Proof.
  destruct files as [|f fs]; [reflexivity|]. simpl.
  destruct (App.sorted_desc fs) as [|g rest]; simpl; [discriminate|].
  destruct (Qle_bool (App.mtime g) (App.mtime f)); discriminate.
Qed.

(** The head of the descending sort is a file of the list and no file
    of the list is more recent. *)
Lemma sorted_desc_head_newest (files : list App.File) :
  forall latest, hd_error (App.sorted_desc files) = Some latest ->
    In latest files /\
    forall f, In f files -> (App.mtime f <= App.mtime latest)%Q.
Proof.
  induction files as [|f fs IH]; intros latest Hhd; [discriminate|].
  simpl in Hhd.
  destruct (App.sorted_desc fs) as [|g rest] eqn:Hs.
  - apply sorted_desc_empty in Hs. subst fs. simpl in Hhd. inversion Hhd; subst.
    split; [now left|]. intros f' [<-|[]]. apply Qle_refl.
  - destruct (IH g eq_refl) as [Hin Hmax].
    simpl in Hhd. destruct (Qle_bool (App.mtime g) (App.mtime f)) eqn:Hle;
      simpl in Hhd; inversion Hhd; subst.
    + apply Qle_bool_iff in Hle. split; [now left|].
      intros f' [<-|Hf']; [apply Qle_refl|].
      eapply Qle_trans; [apply Hmax, Hf'|exact Hle].
    + split; [now right|].
      intros f' [<-|Hf']; [|now apply Hmax].
      apply Qlt_le_weak, Qnot_le_lt. intros Hc.
      apply Qle_bool_iff in Hc. congruence.
Qed.

Lemma latest_file_newest (listing : list App.File) (latest : App.File) :
  App.latest_file listing = Some latest ->
  In latest listing /\
  Py.endswith (App.fname latest) ".xlsx" = true /\
  forall f, In f listing -> Py.endswith (App.fname f) ".xlsx" = true ->
            (App.mtime f <= App.mtime latest)%Q.
Proof.
  intros Hl. apply sorted_desc_head_newest in Hl as [Hin Hmax].
  unfold App.excel_files in *. apply filter_In in Hin as [Hin Hx].
  repeat split; try assumption.
  intros f Hf Hfx. apply Hmax, filter_In. now split.
Qed.

(** The events of the loop are those of the fetcher, source by source. *)
Lemma news_loop_trace (fetch : string -> string -> M NewsRecord)
    (sources : list Source) :
  forall news_data,
    trace (news_loop fetch sources news_data)
    = concat (map (fun s => trace (fetch (name s) (url s))) sources).
Proof.
  induction sources as [|source rest IH]; intros news_data; [reflexivity|].
  destruct (news_loop_step fetch source news_data) as (r & Hstep & _).
  cbn [news_loop map concat].
  rewrite (trace_bind_ok _ _ _ Hstep), IH. f_equal.
  unfold try_except, bind, ret, trace.
  destruct (fetch (name source) (url source)) as [t [a|e]]; simpl;
    now rewrite app_nil_r.
Qed.

Lemma static_attempt_requests_first (w : World) (media_name url : string) :
  exists t, trace (static_attempt w media_name url) = EvRequest url :: t.
Proof.
  unfold static_attempt, write_file, trace, call, bind, tell, raise, ret.
  destruct (requests_get w url) as [soup|e]; simpl; [|eexists; reflexivity].
  destruct (fs_write w _ _) as [[]|e]; eexists; reflexivity.
Qed.

Lemma get_news_requests_first (w : World) (media_name url : string) :
  exists t, trace (get_news w media_name url) = EvRequest url :: t.
Proof.
  destruct (static_attempt_requests_first w media_name url) as (t0 & Ht0).
  destruct (static_attempt w media_name url) as [t [fields|e]] eqn:Hs;
    unfold trace in Ht0; cbn [fst] in Ht0; subst t.
  - destruct (static_complete fields) eqn:Hc.
    + rewrite (get_news_complete _ _ _ _ _ Hs Hc). eexists; reflexivity.
    + rewrite (get_news_incomplete _ _ _ _ _ Hs Hc). eexists; reflexivity.
  - destruct (is_request_exception e) eqn:He.
    + rewrite (get_news_transport_error _ _ _ _ _ Hs He). eexists; reflexivity.
    + rewrite (get_news_other_error _ _ _ _ _ Hs He). eexists; reflexivity.
Qed.

(** The fresh scrape of the endpoint asks every configured source. *)
Lemma scrape_fresh_acquires (w : World) :
  (exists batch, outcome (scrape_news w) = Ok batch /\
                 outcome (App.scrape_fresh w) = Ok (App.Json (map Excel.news_dict batch))) /\
  forall s, In s NEWS_SOURCES -> In (EvRequest (url s)) (trace (App.scrape_fresh w)).
Proof.
  destruct (scrape_news_records w) as (batch & Hrun & _).
  unfold App.scrape_fresh. fold (scrape_news w). split.
  - exists batch. split; [exact Hrun|].
    now rewrite (outcome_bind_ok _ _ _ Hrun).
  - intros s Hs. rewrite (trace_bind_ok _ _ _ Hrun). apply in_or_app. left.
    unfold scrape_news. rewrite news_loop_trace.
    apply in_concat. exists (trace (get_news w (name s) (url s))). split.
    + apply in_map_iff. now exists s.
    + destruct (get_news_requests_first w (name s) (url s)) as (t & ->). now left.
Qed.

(** C6.  Let [latest] be the workbook that [get_news_data] picks from
    the listing: it is a workbook of the listing and no workbook of the
    listing was modified later.  If its age is strictly below one hour,
    the endpoint answers with the records read from the sheet "News
    Headlines" of that workbook and causes no request, no browser start
    and no write; if its age is one hour or more, the endpoint is the
    fresh scrape, which requests every configured source. *)
Theorem news_cache_gate (w : World) (listing : list App.File) (now : Q)
    (latest : App.File) :
  App.latest_file listing = Some latest ->
  App.NEWS_TTL = inject_Z 3600 /\
  (In latest listing /\
   Py.endswith (App.fname latest) ".xlsx" = true /\
   forall f, In f listing -> Py.endswith (App.fname f) ".xlsx" = true ->
             (App.mtime f <= App.mtime latest)%Q) /\
  ((now - App.mtime latest < App.NEWS_TTL)%Q ->
   trace (App.get_news_data w listing now) = [] /\
   forall records,
     Excel.read_excel (App.workbook latest) "News Headlines" = Ok records ->
     outcome (App.get_news_data w listing now) = Ok (App.Json records)) /\
  ((App.NEWS_TTL <= now - App.mtime latest)%Q ->
   App.get_news_data w listing now = App.scrape_fresh w /\
   forall s, In s NEWS_SOURCES ->
             In (EvRequest (url s)) (trace (App.get_news_data w listing now))).
Proof.
  intros Hlatest. split; [reflexivity|].
  split; [now apply latest_file_newest|].
  unfold App.get_news_data. rewrite Hlatest. split.
  - intros Hfresh. rewrite (Qlt_bool_true _ _ Hfresh).
    unfold try_except, bind, pure_call, ret, trace, outcome.
    destruct (Excel.read_excel _ _) as [records|e]; simpl.
    + split; [reflexivity|]. intros r Hr. now inversion Hr.
    + split; [reflexivity|]. discriminate.
  - intros Hstale. rewrite (Qlt_bool_false _ _ Hstale).
    destruct (scrape_fresh_acquires w) as ((batch & _ & Hout) & Hreq).
    assert (Heq : try_except (App.scrape_fresh w)
                    (fun e => ret (App.ServerError (exn_msg e))) = App.scrape_fresh w).
    { unfold try_except. destruct (App.scrape_fresh w) as [t o].
      unfold outcome in Hout; simpl in Hout. now subst o. }
    rewrite Heq. split; [reflexivity|exact Hreq].
Qed.

(** With the newest workbook 59 minutes old the endpoint serves it and
    asks nobody; with the same workbook 61 minutes old it scrapes. *)
Lemma news_cache_gate_witness :
  (trace (App.get_news_data world_blank results_listing (inject_Z (5000 + 59 * 60))) = [] /\
   outcome (App.get_news_data world_blank results_listing (inject_Z (5000 + 59 * 60)))
   = Ok (App.Json [Excel.news_dict cached_record])) /\
  App.get_news_data world_blank results_listing (inject_Z (5000 + 61 * 60))
  = App.scrape_fresh world_blank.
Proof.
  split.
  - destruct (news_cache_gate world_blank results_listing (inject_Z (5000 + 59 * 60))
                newer_workbook eq_refl) as (_ & _ & Hfresh & _).
    destruct Hfresh as [Ht Ho]; [reflexivity|].
    split; [exact Ht|]. apply Ho. reflexivity.
  - destruct (news_cache_gate world_blank results_listing (inject_Z (5000 + 61 * 60))
                newer_workbook eq_refl) as (_ & _ & _ & Hstale).
    destruct Hstale as [He _]; [discriminate|]. exact He.
Defined.

(** ** The catalog acquirer *)

Lemma find_books_none (p : Page) (selectors : list string) :
  (forall selector, In selector selectors -> find_elements p selector = Ok []) ->
  find_books p selectors [] = Ok [].
Proof.
  induction selectors as [|s rest IH]; intros Hnone; [reflexivity|].
  simpl. rewrite (Hnone s) by now left.
  apply IH. intros s' Hs'. apply Hnone. now right.
Qed.

(** [get_international_books] never lets an exception out. *)
Lemma get_international_books_returns (w : World) :
  exists data, outcome (get_international_books w) = Ok data.
Proof.
  unfold get_international_books, finally_, outcome. cbn [snd].
  unfold try_except at 1.
  match goal with |- context [match ?body with _ => _ end] =>
    destruct body as [t [data|e]] end; simpl; eexists; reflexivity.
Qed.

(** C7.  When the browser shows the catalog page and every container
    selector finds no element, [get_international_books] returns the
    empty list and raises nothing; the page source is written to
    [debug_html/page_source.html] (when the file system takes the write)
    as the last thing before the browser is closed and the list is
    returned. *)
Theorem no_item_container_gives_empty_list (w : World) (page : Page) :
  create_chrome_driver w gramedia_url = Ok tt ->
  driver_get w gramedia_url = Ok page ->
  wait_passes page ->
  (forall selector, In selector container_selectors ->
                    find_elements page selector = Ok []) ->
  outcome (get_international_books w) = Ok [] /\
  (fs_write w page_source_path (page_source page) = Ok tt ->
   exists before,
     trace (get_international_books w)
     = (before ++ [EvWrite "debug_html/page_source.html" (page_source page); EvQuit])%list).
Proof.
  intros Hc Hg Hwait Hnone.
  pose proof (find_books_none page container_selectors Hnone) as Hfind.
  unfold get_international_books, finally_, outcome, trace. cbn [fst snd].
  rewrite Hc, Hg.
  unfold try_except, bind, call, pure_call, write_file, tell, raise, ret.
  rewrite Hfind.
  destruct Hwait as [Hw|(e & Hw & Ht & Hshot)]; rewrite Hw;
    [|rewrite Ht, Hshot];
    destruct (scroll_and_collect (scroll_height page)) as [scrolls|];
    (split;
     [ destruct (fs_write w _ _) as [[]|e']; reflexivity
     | intros Hfs; rewrite Hfs; cbn [fst app] ]).
  - now exists [EvChrome; EvNavigate gramedia_url; EvScroll scrolls].
  - now exists [EvChrome; EvNavigate gramedia_url].
  - now exists [EvChrome; EvNavigate gramedia_url;
                EvScreenshot (DEBUG_DIR_screenshots ++ "/timeout_error.png");
                EvScroll scrolls].
  - now exists [EvChrome; EvNavigate gramedia_url;
                EvScreenshot (DEBUG_DIR_screenshots ++ "/timeout_error.png")].
Qed.

Lemma no_item_container_gives_empty_list_witness :
  outcome (get_international_books world_blank) = Ok [] /\
  (fs_write world_blank page_source_path (page_source blank_page) = Ok tt ->
   exists before,
     trace (get_international_books world_blank)
     = (before ++ [EvWrite "debug_html/page_source.html" (page_source blank_page);
                   EvQuit])%list).
Proof.
  apply (no_item_container_gives_empty_list world_blank blank_page).
  - reflexivity.
  - reflexivity.
  - right. eexists. repeat split; reflexivity.
  - intros selector _. reflexivity.
Defined.

(** A field of which no selector matches keeps its default. *)
Lemma field_loop_unmatched (book : WebElement) (t : element_type)
    (selector_list : list string) (current : option string) :
  (forall sel, In sel selector_list ->
     exists e, elem_find_element book sel = Raise e /\ is_no_such_element e = true) ->
  field_loop book t selector_list current = Ok current.
Proof.
  induction selector_list as [|sel rest IH]; intros Hno; [reflexivity|].
  simpl. destruct (Hno sel (or_introl eq_refl)) as (e & -> & ->).
  apply IH. intros s Hs. apply Hno. now right.
Qed.

(** X11.  A card on which no selector of any field matches an element
    gives a record with "N/A" in all four fields. *)
Lemma process_book_unmatched (book : WebElement) :
  (forall sel, exists e, elem_find_element book sel = Raise e /\
                         is_no_such_element e = true) ->
  process_book book = Ok (mkBook (Some NA) (Some NA) (Some NA) (Some NA)).
Proof.
  intros Hno. unfold process_book.
  rewrite !field_loop_unmatched by (intros sel _; apply Hno). reflexivity.
Qed.

(** C8 (fails on the code).  A product card whose image element has no
    [src] and whose price element is blank, no later selector of those
    two kinds matching: the emitted record holds [None] as image URL and
    the empty string as price, not "N/A". *)
Theorem unresolved_field_overwrites_default :
  process_book_elements [lazy_card]
  = [mkBook (Some "Atomic Habits") (Some "James Clear") (Some "") None] /\
  Excel.book_dict (mkBook (Some "Atomic Habits") (Some "James Clear") (Some "") None)
  = [("Judul", Excel.Str "Atomic Habits"); ("Penerbit", Excel.Str "James Clear");
     ("Harga", Excel.Str ""); ("Image URL", Excel.PyNone)].
Proof. split; reflexivity. Qed.

(** ** Persisting and reading back *)

(** C9 (fails on the code).  The workbook written for a book of which
    only the title was resolved, read back the way [/api/books] reads
    it, has NaN where the record holds "N/A"; the same happens to the
    "N/A" image of an error record on the news sheet. *)
Theorem workbook_round_trip_loses_sentinel :
  Excel.read_excel (Excel.write_workbook [] [title_only_book]) "Gramedia Books"
  = Ok [[("Judul", Excel.Str "Atomic Habits"); ("Penerbit", Excel.NaN);
         ("Harga", Excel.NaN); ("Image URL", Excel.NaN)]] /\
  Excel.book_dict title_only_book
  = [("Judul", Excel.Str "Atomic Habits"); ("Penerbit", Excel.Str "N/A");
     ("Harga", Excel.Str "N/A"); ("Image URL", Excel.Str "N/A")] /\
  Excel.read_excel
    (Excel.write_workbook
       [error_record "kompas" "https://www.kompas.com/"
          (mkExn OtherException "disk full") "N/A"] [])
    "News Headlines"
  = Ok [[("Media", Excel.Str "Kompas"); ("Headline", Excel.Str "Error: disk full");
         ("Image", Excel.NaN); ("URL", Excel.Str "https://www.kompas.com/")]].
Proof. repeat split; reflexivity. Qed.

(** ** The trending scraper across runs *)


(** Whatever the network does, a run keeps the entries the instance
    already held, in front. *)
Lemma append_media_keeps (items : list AniList.MediaItem) :
  forall s, exists new,
    AniList.results (fst (AniList.append_media items s))
    = (AniList.results s ++ new)%list.
Proof.
  induction items as [|[r e n l m|bad] rest IH]; intros s; simpl.
  - exists []. now rewrite app_nil_r.
  - destruct (IH (AniList.set_results s
                    (AniList.results s ++ [AniList.media_entry r e n l m])%list))
      as (new & Hnew).
    exists (AniList.media_entry r e n l m :: new). rewrite Hnew. simpl.
    now rewrite <- app_assoc.
  - exists []. now rewrite app_nil_r.
Qed.

Lemma persist_results (s : AniList.State) :
  AniList.results (AniList.persist s) = AniList.results s.
Proof.
  unfold AniList.persist, AniList.save_to_csv, AniList.save_to_json.
  destruct s as [[|x r] j c l]; reflexivity.
Qed.


Lemma persist_files (s : AniList.State) :
  AniList.results s <> [] ->
  AniList.json_file (AniList.persist s) = Some (AniList.results s) /\
  AniList.csv_file (AniList.persist s)
  = Some (AniList.csv_header :: map AniList.csv_row (AniList.results s)) /\
  AniList.calls (AniList.persist s) = AniList.calls s.
Proof.
  unfold AniList.persist, AniList.save_to_csv, AniList.save_to_json.
  destruct s as [[|x r] j c l]; simpl; [congruence|]. intros _. repeat split.
Qed.

Lemma use_graphql_api_keeps (net : AniList.Net) (s : AniList.State) :
  exists new,
    AniList.results (fst (AniList.use_graphql_api net s))
    = (AniList.results s ++ new)%list.
Proof.
  unfold AniList.use_graphql_api, AniList.graphql_handler.
  destruct (AniList.graphql_post net) as [[items|]|e].
  - destruct (append_media_keeps items (AniList.log_call s AniList.CallGraphQL))
      as (new & Hnew).
    exists new.
    destruct (AniList.append_media items _) as [s1 [u|e]]; simpl in *;
      [exact Hnew|]. now destruct (is_request_exception e).
  - exists []. simpl. now rewrite app_nil_r.
  - exists []. destruct (is_request_exception e); simpl; now rewrite app_nil_r.
Qed.

Lemma scrape_html_keeps (net : AniList.Net) (s : AniList.State) :
  exists new,
    AniList.results (fst (AniList.scrape_html net s))
    = (AniList.results s ++ new)%list.
Proof.
  unfold AniList.scrape_html, AniList.fetch_page.
  destruct (AniList.page_get net) as [cards|e].
  - exists (map AniList.card_entry cards). reflexivity.
  - exists []. destruct (is_request_exception e); simpl; now rewrite app_nil_r.
Qed.

(** X16.  No run ever drops or replaces an entry the instance already
    holds, however it ends: the list after [run] is the list before it
    with the entries of this run appended. *)
Lemma run_keeps_prior_entries (net : AniList.Net) (use_api : bool)
    (s : AniList.State) :
  exists new,
    AniList.results (fst (AniList.run net use_api s))
    = (AniList.results s ++ new)%list.
Proof.
  assert (Hfin : forall (f : AniList.State * result unit) new,
             AniList.results (fst f) = (AniList.results s ++ new)%list ->
             AniList.results
               (fst (match f with
                     | (self, Ok _) => (AniList.persist self, Ok tt)
                     | (self, Raise e) => (self, Raise e)
                     end)) = (AniList.results s ++ new)%list).
  { intros [self [u|e]] new Hf; simpl in *; [now rewrite persist_results|exact Hf]. }
  unfold AniList.run. destruct use_api.
  - destruct (use_graphql_api_keeps net s) as (new1 & H1).
    destruct (AniList.use_graphql_api net s) as [s1 [count|e]]; simpl in H1.
    + destruct (0 <? count).
      * exists new1. now apply (Hfin (s1, Ok tt)).
      * destruct (scrape_html_keeps net s1) as (new2 & H2).
        exists (new1 ++ new2)%list. apply Hfin. rewrite H2, H1.
        now rewrite app_assoc.
    + exists new1. now apply (Hfin (s1, Raise e)).
  - destruct (scrape_html_keeps net s) as (new & Hn).
    exists new. now apply Hfin.
Qed.




(** ** Runs on concrete inputs *)

Example get_news_static_run :
  get_news world_static_ok "kompas" "https://www.kompas.com/"
  = ([EvRequest "https://www.kompas.com/";
      EvWrite "debug_html/kompas_debug.html" "<html>kompas</html>"],
     Ok (mkNews "Kompas" "Banjir di Jakarta" "https://asset.kompas.com/banjir.jpg"
                "https://www.kompas.com/")).
Proof. reflexivity. Qed.

Example get_news_blank_first_match_escalates :
  rendered_invoked
    (get_news (mkWorld (fun _ => Ok soup_blank_first_match) (fun _ _ => Ok tt)
                       (fun _ => Ok tt) (fun _ => Ok blank_page))
              "kompas" "https://www.kompas.com/") = true.
Proof. reflexivity. Qed.

Example get_news_offline_run :
  get_news (world_offline "net::ERR_INTERNET_DISCONNECTED") "detik" "https://www.detik.com/"
  = ([EvRequest "https://www.detik.com/"; EvChrome;
      EvNavigate "https://www.detik.com/"; EvQuit],
     Ok (mkNews "Detik" "Error: net::ERR_INTERNET_DISCONNECTED" "Error"
                "https://www.detik.com/")).
Proof. reflexivity. Qed.

Example scroll_settles_at_third : scroll_and_collect settling_heights = Some 3.
Proof. reflexivity. Qed.

Example scroll_hits_the_cap : scroll_and_collect growing_heights = Some 20.
Proof. reflexivity. Qed.

Example second_run_persists_both :
  AniList.json_file (fst (AniList.run net_two true after_first_run))
  = Some [AniList.mkEntry (Some "Sousou no Frieren")
            (Some "https://s4.anilist.co/frieren-large.jpg") (Some "Sousou no Frieren");
          AniList.mkEntry (Some "Dandadan")
            (Some "https://s4.anilist.co/dandadan-medium.jpg") (Some "Dandadan")].
Proof. reflexivity. Qed.

(** * Further properties of the code *)

(** ** The news fetchers *)

Lemma selenium_headline_first_nonempty_witness :
  selenium_headline_loop rendered_front_page
    ([".read__title"; ".headline__title"] ++ ".most__title" :: [".trending__title"]) None
  = Ok (Some "Banjir di Jakarta").
Proof.
  apply (selenium_headline_first_nonempty rendered_front_page
           [".read__title"; ".headline__title"] [".trending__title"] ".most__title"
           (leaf " Banjir di Jakarta " []) None).
  - apply Forall_cons; [|apply Forall_cons; [|apply Forall_nil]].
    + right. exists (leaf "   " []). split; reflexivity.
    + left. exists no_such_element. split; reflexivity.
  - reflexivity.
  - discriminate.
Defined.

Lemma selenium_image_first_nonempty_witness :
  selenium_image_loop rendered_front_page
    ([".photo__wrap img"] ++ ".headline__thumb img" :: ["img.lozad"]) None
  = Ok (Some "https://asset.kompas.com/banjir.jpg").
Proof.
  apply (selenium_image_first_nonempty rendered_front_page
           [".photo__wrap img"] ["img.lozad"] ".headline__thumb img"
           (leaf "" [("src", ""); ("data-src", "https://asset.kompas.com/banjir.jpg")])
           None).
  - apply Forall_cons; [|apply Forall_nil].
    left. exists no_such_element. split; reflexivity.
  - reflexivity.
  - reflexivity.
Defined.

Lemma static_image_first_nonempty_witness :
  static_image_loop kompas_front_page
    ([] ++ ".photo__wrap img" :: [".headline__thumb img"; "img.lozad"]) None
  = Some "https://asset.kompas.com/banjir.jpg".
Proof.
  apply (static_image_first_nonempty kompas_front_page [] _ ".photo__wrap img"
           (mkTag [("data-src", "https://asset.kompas.com/banjir.jpg")] []) None).
  - constructor.
  - reflexivity.
  - reflexivity.
Defined.

Lemma static_headline_first_match_witness :
  static_headline_loop kompas_front_page
    ([".read__title"] ++ ".headline__title" :: [".most__title"; ".trending__title"])
  = Some "Banjir di Jakarta".
Proof.
  apply (static_headline_first_match kompas_front_page [".read__title"] _
           ".headline__title"
           (mkTag [("class", "headline__title")] ["  Banjir di Jakarta "; "  "])).
  - apply Forall_cons; [reflexivity|apply Forall_nil].
  - reflexivity.
Defined.

(** X5.  When the static attempt raises anything but a transport error
    (the HTML dump cannot be written, the parser fails), [get_news]
    answers with the record of its last handler: headline "Error: " and
    the message, image "N/A"; no browser is started. *)
Theorem static_other_exception_record (w : World) (media_name url : string) (e : exn) :
  outcome (static_attempt w media_name url) = Raise e ->
  exn_cls e <> RequestException ->
  outcome (get_news w media_name url)
    = Ok (mkNews (Py.capitalize media_name) ("Error: " ++ exn_msg e) "N/A" url) /\
  rendered_invoked (get_news w media_name url) = false.
Proof.
  intros Hs Hcls.
  assert (He : is_request_exception e = false).
  { unfold is_request_exception. destruct (exn_cls e); congruence. }
  pose proof (static_attempt_no_chrome w media_name url) as Hno.
  destruct (static_attempt w media_name url) as [t o] eqn:Hst.
  unfold outcome in Hs; cbn [snd] in Hs; subst o.
  rewrite (get_news_other_error _ _ _ _ _ Hst He).
  split; [reflexivity|exact Hno].
Qed.

Lemma static_other_exception_record_witness :
  outcome (get_news world_disk_full "kompas" "https://www.kompas.com/")
    = Ok (mkNews "Kompas" "Error: No space left on device" "N/A"
                 "https://www.kompas.com/") /\
  rendered_invoked (get_news world_disk_full "kompas" "https://www.kompas.com/") = false.
Proof.
  apply (static_other_exception_record world_disk_full "kompas"
           "https://www.kompas.com/" (mkExn OtherException "No space left on device")).
  - reflexivity.
  - discriminate.
Defined.

(** X6.  For a media name that has no entry in [HEADLINE_SELECTORS] or
    none in [IMAGE_SELECTORS] the static cascades resolve nothing: unless
    the static attempt ends in a non-transport exception, [get_news]
    always goes to the browser and answers what the rendered path
    answers. *)
Theorem unconfigured_media_always_escalates (w : World) (media_name url : string) :
  Py.lookup HEADLINE_SELECTORS media_name = None \/
  Py.lookup IMAGE_SELECTORS media_name = None ->
  (forall e, outcome (static_attempt w media_name url) = Raise e ->
             exn_cls e = RequestException) ->
  rendered_invoked (get_news w media_name url) = true /\
  outcome (get_news w media_name url)
    = outcome (get_news_with_selenium w media_name url).
Proof.
  intros Hmiss Htransport.
  destruct (get_news_with_selenium_starts_chrome w media_name url) as (ts & Hts).
  assert (Hinv : forall t,
             existsb is_chrome (t ++ trace (get_news_with_selenium w media_name url))
             = true).
  { intros t. rewrite existsb_app, Hts. simpl. apply orb_true_r. }
  destruct (static_attempt w media_name url) as [t [fields|e]] eqn:Hs.
  - assert (Hc : static_complete fields = false).
    { unfold static_attempt, write_file, call, bind, tell, raise, ret in Hs.
      destruct (requests_get w url) as [soup|e]; [|discriminate].
      destruct (fs_write w _ _) as [[]|e]; [|discriminate].
      inversion Hs; subst. unfold static_complete, static_headline, static_image.
      cbn [fst snd].
      destruct Hmiss as [-> | ->]; [reflexivity|apply andb_false_r]. }
    rewrite (get_news_incomplete _ _ _ _ _ Hs Hc).
    split; [apply Hinv|reflexivity].
  - assert (He : is_request_exception e = true).
    { unfold is_request_exception. now rewrite (Htransport e eq_refl). }
    rewrite (get_news_transport_error _ _ _ _ _ Hs He).
    split; [apply Hinv|reflexivity].
Qed.

Lemma unconfigured_media_always_escalates_witness :
  rendered_invoked (get_news world_static_ok "cnn" "https://edition.cnn.com/") = true /\
  outcome (get_news world_static_ok "cnn" "https://edition.cnn.com/")
    = outcome (get_news_with_selenium world_static_ok "cnn" "https://edition.cnn.com/").
Proof.
  apply (unconfigured_media_always_escalates world_static_ok "cnn"
           "https://edition.cnn.com/").
  - left. reflexivity.
  - intros e He. discriminate He.
Defined.

Lemma count_app (kind : event -> bool) (t1 t2 : list event) :
  count kind (t1 ++ t2) = count kind t1 + count kind t2.
Proof. unfold count. now rewrite filter_app, length_app. Qed.

Lemma count_other (kind : event -> bool) (t : list event) :
  (forall ev, is_other ev = true -> kind ev = false) ->
  forallb is_other t = true -> count kind t = 0.
Proof.
  intros Hk. unfold count. induction t as [|ev t IH]; simpl; [reflexivity|].
  intros H. apply andb_true_iff in H as [Hev Ht]. rewrite (Hk ev Hev). now apply IH.
Qed.

Lemma other_not_request ev : is_other ev = true -> is_request ev = false.
Proof. now destruct ev. Qed.

Lemma other_not_chrome ev : is_other ev = true -> is_chrome ev = false.
Proof. now destruct ev. Qed.

Lemma other_not_quit ev : is_other ev = true -> is_quit ev = false.
Proof. now destruct ev. Qed.

(** The events of the rendered path: the browser start, then page loads
    and screenshots, then the shutdown if the browser had started. *)
Lemma get_news_with_selenium_trace (w : World) (media_name url : string) :
  exists mid,
    trace (get_news_with_selenium w media_name url)
    = (EvChrome :: mid ++
       match create_chrome_driver w url with Ok _ => [EvQuit] | Raise _ => [] end)%list /\
    forallb is_other mid = true.
Proof.
  unfold get_news_with_selenium, finally_, try_except, trace, call, pure_call, bind, ret.
  destruct (create_chrome_driver w url) as [[]|e0]; cbn [fst snd app].
  2:{ exists []. split; reflexivity. }
  destruct (driver_get w url) as [page|e1]; cbn [fst snd app].
  2:{ exists [EvNavigate url]. split; reflexivity. }
  destruct (save_screenshot page _) as [[]|e2]; cbn [fst snd app].
  2:{ eexists [EvNavigate url; EvScreenshot _]. split; reflexivity. }
  destruct (selenium_extract page media_name) as [fields|e3]; cbn [fst snd app];
    eexists [EvNavigate url; EvScreenshot _]; split; reflexivity.
Qed.

Lemma static_attempt_trace (w : World) (media_name url : string) :
  exists ws, trace (static_attempt w media_name url) = EvRequest url :: ws /\
             forallb is_other ws = true.
Proof.
  unfold static_attempt, write_file, trace, call, bind, tell, raise, ret.
  destruct (requests_get w url) as [soup|e]; simpl.
  - destruct (fs_write w _ _) as [[]|e]; simpl.
    + eexists [EvWrite _ _]. split; reflexivity.
    + exists []. split; reflexivity.
  - exists []. split; reflexivity.
Qed.

Lemma existsb_other (kind : event -> bool) (t : list event) :
  (forall ev, is_other ev = true -> kind ev = false) ->
  forallb is_other t = true -> existsb kind t = false.
Proof.
  intros Hk. induction t as [|ev t IH]; simpl; [reflexivity|].
  intros H. apply andb_true_iff in H as [Hev Ht]. now rewrite (Hk ev Hev), IH.
Qed.

Lemma lifecycle_static (b : bool) (url : string) (ws : list event) :
  forallb is_other ws = true -> lifecycle b (EvRequest url :: ws).
Proof.
  intros Hws. unfold lifecycle.
  change (EvRequest url :: ws) with ([EvRequest url] ++ ws)%list.
  rewrite existsb_app, (existsb_other is_chrome ws other_not_chrome Hws), !count_app.
  rewrite (count_other is_request ws other_not_request Hws),
          (count_other is_chrome ws other_not_chrome Hws),
          (count_other is_quit ws other_not_quit Hws).
  simpl. repeat split; try reflexivity. discriminate.
Qed.

Lemma lifecycle_rendered (r : result unit) (url : string) (ws mid : list event) :
  forallb is_other ws = true -> forallb is_other mid = true ->
  lifecycle (started r)
    ((EvRequest url :: ws) ++ EvChrome :: mid ++
     match r with Ok _ => [EvQuit] | Raise _ => [] end)%list.
Proof.
  intros Hws Hmid. unfold lifecycle.
  assert (Hex : existsb is_chrome
                  ((EvRequest url :: ws) ++ EvChrome :: mid ++
                   match r with Ok _ => [EvQuit] | Raise _ => [] end)%list = true).
  { rewrite existsb_app. simpl. apply orb_true_r. }
  rewrite Hex.
  change (EvRequest url :: ws) with ([EvRequest url] ++ ws)%list.
  change (EvChrome :: mid ++ ?q)%list with ([EvChrome] ++ mid ++ q)%list.
  rewrite !count_app.
  rewrite (count_other is_request ws other_not_request Hws),
          (count_other is_chrome ws other_not_chrome Hws),
          (count_other is_quit ws other_not_quit Hws),
          (count_other is_request mid other_not_request Hmid),
          (count_other is_chrome mid other_not_chrome Hmid),
          (count_other is_quit mid other_not_quit Hmid).
  destruct r as [[]|e0]; simpl; repeat split; try reflexivity; try discriminate.
  intros _. exists (EvRequest url :: ws ++ EvChrome :: mid)%list.
  simpl. now rewrite <- !app_assoc.
Qed.

(** X7.  One call of [get_news] issues exactly one HTTP request and
    starts at most one browser; a browser that started is shut down
    exactly once, as the last thing the call does, and a browser that
    failed to start is never shut down. *)
Theorem get_news_one_request_one_browser (w : World) (media_name url : string) :
  count is_request (trace (get_news w media_name url)) = 1 /\
  count is_chrome (trace (get_news w media_name url))
    = (if rendered_invoked (get_news w media_name url) then 1 else 0) /\
  count is_quit (trace (get_news w media_name url))
    = (if rendered_invoked (get_news w media_name url)
       then match create_chrome_driver w url with Ok _ => 1 | Raise _ => 0 end
       else 0) /\
  (count is_quit (trace (get_news w media_name url)) = 1 ->
   exists before, trace (get_news w media_name url) = (before ++ [EvQuit])%list).
Proof.
  cut (lifecycle (started (create_chrome_driver w url))
                 (trace (get_news w media_name url))).
  { unfold lifecycle, rendered_invoked, started.
    now destruct (create_chrome_driver w url). }
  destruct (static_attempt_trace w media_name url) as (ws & Hst & Hws).
  destruct (get_news_with_selenium_trace w media_name url) as (mid & Hsel & Hmid).
  destruct (static_attempt w media_name url) as [t0 [fields|e]] eqn:Hs;
    unfold trace in Hst; cbn [fst] in Hst; subst t0.
  - destruct (static_complete fields) eqn:Hc.
    + rewrite (get_news_complete _ _ _ _ _ Hs Hc). now apply lifecycle_static.
    + rewrite (get_news_incomplete _ _ _ _ _ Hs Hc). unfold trace at 1. cbn [fst].
      rewrite Hsel. now apply lifecycle_rendered.
  - destruct (is_request_exception e) eqn:He.
    + rewrite (get_news_transport_error _ _ _ _ _ Hs He). unfold trace at 1. cbn [fst].
      rewrite Hsel. now apply lifecycle_rendered.
    + rewrite (get_news_other_error _ _ _ _ _ Hs He). now apply lifecycle_static.
Qed.

Lemma first_picture_cases (elements : list WebElement) (image_url : option string) :
  first_picture elements image_url = image_url \/
  exists el src,
    In el elements /\ get_attribute el "src" = Some src /\
    src <> "" /\ is_picture src = true /\
    first_picture elements image_url = Some src.
Proof.
  induction elements as [|el rest IH]; simpl; [now left|].
  destruct (get_attribute el "src") as [src|] eqn:Hsrc.
  - destruct (negb (Py.is_empty src) && is_picture src) eqn:Hok.
    + right. exists el, src. apply andb_true_iff in Hok as [Hne Hpic].
      repeat split; auto. intros ->. discriminate.
    + destruct IH as [IH|(el' & src' & Hin & H)]; [now left|].
      right. exists el', src'. split; [now right|exact H].
  - destruct IH as [IH|(el' & src' & Hin & H)]; [now left|].
    right. exists el', src'. split; [now right|exact H].
Qed.

(** X8.  The image fallback of the rendered path leaves the value as it
    is, or sets the not-found string (when the search raised), or takes
    the [src] of an [img] element of the page; it never takes a [src]
    that is empty or does not end in ".jpg", ".png" or ".jpeg". *)
Theorem fallback_image_only_pictures (p : Page) (image_url : option string) :
  fallback_image p image_url = image_url \/
  fallback_image p image_url = Some IMAGE_NOT_FOUND \/
  exists elements el src,
    find_elements p "img" = Ok elements /\ In el elements /\
    get_attribute el "src" = Some src /\ src <> "" /\
    (Py.endswith src ".jpg" = true \/ Py.endswith src ".png" = true \/
     Py.endswith src ".jpeg" = true) /\
    fallback_image p image_url = Some src.
Proof.
  unfold fallback_image. destruct (Py.truthy image_url); [now left|].
  destruct (find_elements p "img") as [elements|e]; [|right; now left].
  destruct (first_picture_cases elements image_url)
    as [H|(el & src & Hin & Hsrc & Hne & Hpic & H)]; [now left|].
  right; right. exists elements, el, src. repeat split; auto.
  unfold is_picture in Hpic.
  apply orb_true_iff in Hpic as [Hpic|Hj]; [apply orb_true_iff in Hpic as [Hj|Hp]|]; auto.
Qed.

(** X9.  When the browser shows a page on which no locator matches, the
    record of the rendered path takes its headline from the first element
    that the search "h1, h2, .title" finds (its trimmed text, or the
    not-found string when that is blank) and its image from the first
    [img] with a picture [src] (or the not-found string when there is
    none). *)
Theorem rendered_generic_fallback (w : World) (media_name url : string)
    (page : Page) (first : WebElement) (rest imgs : list WebElement) :
  create_chrome_driver w url = Ok tt ->
  driver_get w url = Ok page ->
  save_screenshot page (DEBUG_DIR_screenshots ++ "/" ++ media_name ++ "_screenshot.png")
    = Ok tt ->
  (forall selector, exists e,
      find_element page selector = Raise e /\ is_no_such_element e = true) ->
  find_elements page "h1, h2, .title" = Ok (first :: rest) ->
  find_elements page "img" = Ok imgs ->
  outcome (get_news_with_selenium w media_name url)
  = Ok (mkNews (Py.capitalize media_name)
               (Py.or_default (Some (Py.strip (text first))) HEADLINE_NOT_FOUND)
               (Py.or_default (first_picture imgs None) IMAGE_NOT_FOUND)
               url).
Proof.
  intros Hc Hg Hshot Hno Hh Hi.
  unfold get_news_with_selenium, finally_, try_except, outcome, call, pure_call, bind, ret.
  rewrite Hc; simpl. rewrite Hg; simpl. simpl in Hshot. rewrite Hshot; simpl.
  unfold selenium_extract.
  rewrite selenium_headline_loop_nothing, selenium_image_loop_nothing by exact Hno.
  unfold fallback_headline, fallback_image. cbn [Py.truthy]. rewrite Hh, Hi.
  reflexivity.
Qed.

Lemma rendered_generic_fallback_witness :
  outcome (get_news_with_selenium world_generic "tempo" "https://www.tempo.co/")
  = Ok (mkNews "Tempo" "Berita Utama" "https://cdn.example.com/foto.jpeg"
               "https://www.tempo.co/").
Proof.
  apply (rendered_generic_fallback world_generic "tempo" "https://www.tempo.co/"
           generic_page (leaf " Berita Utama " []) [leaf "Lainnya" []]
           [leaf "" [("src", "https://cdn.example.com/pixel.gif")];
            leaf "" [("src", "https://cdn.example.com/foto.jpeg")]]).
  - reflexivity.
  - reflexivity.
  - reflexivity.
  - intros selector. exists no_such_element. split; reflexivity.
  - reflexivity.
  - reflexivity.
Defined.

(** ** The catalog *)

(** X10.  A catalog field takes the value of the first selector of its
    list that yields a non-empty one; selectors before it that match
    nothing or yield an empty value are passed over, later ones are not
    tried. *)
Theorem field_loop_first_nonempty (book : WebElement) (t : element_type)
    (pre post : list string) (sel : string) (el : WebElement)
    (current : option string) :
  Forall (no_field_at book t) pre ->
  elem_find_element book sel = Ok el ->
  Py.truthy (extract t el) = true ->
  field_loop book t (pre ++ sel :: post) current = Ok (extract t el).
Proof.
  intros Hpre Hsel Hv. revert current.
  induction Hpre as [|s pre [(e & He & Hno)|(el' & Hel' & Hblank)] _ IH];
    intros current; simpl.
  - now rewrite Hsel, Hv.
  - rewrite He, Hno. apply IH.
  - rewrite Hel', Hblank. apply IH.
Qed.

Lemma field_loop_first_nonempty_witness :
  field_loop lazy_card Title
    ([] ++ "h2.text-neutral-700" :: ["h2.product-title"; "div.product-name";
                                     "[data-testid='productTitle']"])
    (Some NA)
  = Ok (Some "Atomic Habits").
Proof.
  apply (field_loop_first_nonempty lazy_card Title [] _ "h2.text-neutral-700"
           (leaf "Atomic Habits" []) (Some NA)).
  - apply Forall_nil.
  - reflexivity.
  - reflexivity.
Defined.

Lemma process_book_unmatched_witness :
  process_book bare_card = Ok (mkBook (Some NA) (Some NA) (Some NA) (Some NA)).
Proof.
  apply (process_book_unmatched bare_card).
  intros sel. exists no_such_element. split; reflexivity.
Defined.

Lemma process_book_elements_app (l1 l2 : list WebElement) :
  process_book_elements (l1 ++ l2)
  = (process_book_elements l1 ++ process_book_elements l2)%list.
Proof.
  induction l1 as [|b l1 IH]; simpl; [reflexivity|].
  destruct (process_book b); simpl; now rewrite IH.
Qed.

(** X12.  A card whose processing raises (any exception other than a
    missing element) is left out and the cards around it are processed
    as if it were not there; the result never has more records than
    there are cards. *)
Theorem failing_book_is_skipped (before after : list WebElement)
    (bad : WebElement) (e : exn) :
  process_book bad = Raise e ->
  process_book_elements (before ++ bad :: after)
  = (process_book_elements before ++ process_book_elements after)%list /\
  length (process_book_elements (before ++ bad :: after))
  <= length before + length after.
Proof.
  intros Hbad.
  assert (Hlen : forall l, length (process_book_elements l) <= length l).
  { induction l as [|b l IH]; simpl; [lia|]. destruct (process_book b); simpl; lia. }
  rewrite process_book_elements_app. simpl. rewrite Hbad. split; [reflexivity|].
  rewrite length_app. pose proof (Hlen before). pose proof (Hlen after). lia.
Qed.

Lemma failing_book_is_skipped_witness :
  process_book_elements ([lazy_card] ++ stale_card :: [bare_card])
  = (process_book_elements [lazy_card] ++ process_book_elements [bare_card])%list /\
  length (process_book_elements ([lazy_card] ++ stale_card :: [bare_card])) <= 1 + 1.
Proof.
  apply (failing_book_is_skipped [lazy_card] [bare_card] stale_card
           (mkExn WebDriverException "stale element reference")).
  reflexivity.
Defined.

(** X13.  The catalog cards are those of the first container selector
    that finds at least one element; what later selectors would find is
    not looked at and nothing is merged. *)
Theorem find_books_first_match (p : Page) (pre post : list string)
    (selector : string) (b : WebElement) (bs : list WebElement) :
  Forall (fun s => find_elements p s = Ok []) pre ->
  find_elements p selector = Ok (b :: bs) ->
  find_books p (pre ++ selector :: post) [] = Ok (b :: bs).
Proof.
  intros Hpre Hsel. induction Hpre as [|s pre Hs _ IH]; simpl.
  - now rewrite Hsel.
  - now rewrite Hs.
Qed.

Lemma find_books_first_match_witness :
  find_books catalog_page
    (["div.ProductCard_cardContent__fawWr"] ++ "div.product-card"
       :: ["div[data-testid='productCard']"; "div.product-item"]) []
  = Ok [lazy_card; stale_card].
Proof.
  apply (find_books_first_match catalog_page ["div.ProductCard_cardContent__fawWr"] _
           "div.product-card" lazy_card [stale_card]).
  - apply Forall_cons; [reflexivity|apply Forall_nil].
  - reflexivity.
Defined.

(** X14.  [get_international_books] never raises.  If the browser cannot
    be started the result is the empty list and nothing else happens; if
    the page cannot be loaded the result is the empty list and the
    browser is shut down; and whenever the browser was started, the
    shutdown is the last event of the call and happens once. *)
Theorem catalog_failure_gives_empty_list (w : World) :
  (exists data, outcome (get_international_books w) = Ok data) /\
  (forall e, create_chrome_driver w gramedia_url = Raise e ->
             get_international_books w = ([EvChrome], Ok [])) /\
  (forall e, create_chrome_driver w gramedia_url = Ok tt ->
             driver_get w gramedia_url = Raise e ->
             get_international_books w
             = ([EvChrome; EvNavigate gramedia_url; EvQuit], Ok [])) /\
  (create_chrome_driver w gramedia_url = Ok tt ->
   exists before,
     trace (get_international_books w) = (before ++ [EvQuit])%list /\
     count is_quit before = 0).
Proof.
  split; [apply get_international_books_returns|].
  unfold get_international_books, finally_, trace.
  split; [|split].
  - intros e He. rewrite He. reflexivity.
  - intros e Hc Hg. rewrite Hc.
    unfold try_except, bind, call. rewrite Hg. reflexivity.
  - intros Hc. rewrite Hc. cbn [fst]. eexists. split; [reflexivity|].
    unfold try_except, bind, call, pure_call, write_file, tell, raise, ret.
    destruct (driver_get w gramedia_url) as [page|e]; [|reflexivity].
    destruct (wait_until_present page _) as [[]|e].
    + destruct (scroll_and_collect (scroll_height page));
        destruct (find_books page container_selectors []) as [[|b bs]|e];
        try reflexivity;
        destruct (fs_write w _ _) as [[]|e]; reflexivity.
    + destruct (is_timeout e); [|reflexivity].
      destruct (save_screenshot page _) as [[]|e']; [|reflexivity].
      destruct (scroll_and_collect (scroll_height page));
        destruct (find_books page container_selectors []) as [[|b bs]|e''];
        try reflexivity;
        destruct (fs_write w _ _) as [[]|e'']; reflexivity.
Qed.

(** X15.  When a container selector finds cards, the result of
    [get_international_books] is what [process_book_elements] makes of
    the cards of the first such selector, and the page source is not
    written. *)
Theorem catalog_processes_first_container (w : World) (page : Page)
    (b : WebElement) (bs : list WebElement) :
  create_chrome_driver w gramedia_url = Ok tt ->
  driver_get w gramedia_url = Ok page ->
  wait_passes page ->
  find_books page container_selectors [] = Ok (b :: bs) ->
  outcome (get_international_books w) = Ok (process_book_elements (b :: bs)) /\
  count is_write (trace (get_international_books w)) = 0.
Proof.
  intros Hc Hg Hwait Hfind.
  unfold get_international_books, finally_, outcome, trace. cbn [fst snd].
  rewrite Hc, Hg.
  unfold try_except, bind, call, pure_call, write_file, tell, raise, ret.
  rewrite Hfind.
  destruct Hwait as [Hw|(e & Hw & Ht & Hshot)]; rewrite Hw;
    [|rewrite Ht, Hshot];
    destruct (scroll_and_collect (scroll_height page)) as [scrolls|];
    split; reflexivity.
Qed.

Lemma catalog_processes_first_container_witness :
  outcome (get_international_books world_catalog)
    = Ok (process_book_elements [lazy_card; stale_card]) /\
  count is_write (trace (get_international_books world_catalog)) = 0.
Proof.
  apply (catalog_processes_first_container world_catalog catalog_page
           lazy_card [stale_card]).
  - reflexivity.
  - reflexivity.
  - left. reflexivity.
  - reflexivity.
Defined.

(** ** The trending scraper *)

Section Added.

Variable P : AniList.Entry -> Prop.
Hypothesis P_media : forall r e n l m, P (AniList.media_entry r e n l m).
Hypothesis P_card : forall card, P (AniList.card_entry card).

Lemma append_media_adds (items : list AniList.MediaItem) :
  forall s, exists new,
    AniList.results (fst (AniList.append_media items s))
    = (AniList.results s ++ new)%list /\ Forall P new.
Proof.
  induction items as [|[r e n l m|bad] rest IH]; intros s; simpl.
  - exists []. rewrite app_nil_r. now split.
  - destruct (IH (AniList.set_results s
                    (AniList.results s ++ [AniList.media_entry r e n l m])%list))
      as (new & Hnew & HP).
    exists (AniList.media_entry r e n l m :: new). rewrite Hnew. simpl.
    rewrite <- app_assoc. split; [reflexivity|]. constructor; [apply P_media|exact HP].
  - exists []. rewrite app_nil_r. now split.
Qed.

Lemma use_graphql_api_adds (net : AniList.Net) (s : AniList.State) :
  exists new,
    AniList.results (fst (AniList.use_graphql_api net s))
    = (AniList.results s ++ new)%list /\ Forall P new.
Proof.
  unfold AniList.use_graphql_api, AniList.graphql_handler.
  destruct (AniList.graphql_post net) as [[items|]|e].
  - destruct (append_media_adds items (AniList.log_call s AniList.CallGraphQL))
      as (new & Hnew & HP).
    exists new.
    destruct (AniList.append_media items _) as [s1 [u|e]]; simpl in *;
      [now split|]. now destruct (is_request_exception e).
  - exists []. simpl. rewrite app_nil_r. now split.
  - exists []. destruct (is_request_exception e); simpl; rewrite app_nil_r; now split.
Qed.

Lemma scrape_html_adds (net : AniList.Net) (s : AniList.State) :
  exists new,
    AniList.results (fst (AniList.scrape_html net s))
    = (AniList.results s ++ new)%list /\ Forall P new.
Proof.
  unfold AniList.scrape_html, AniList.fetch_page.
  destruct (AniList.page_get net) as [cards|e].
  - exists (map AniList.card_entry cards). split; [reflexivity|].
    apply Forall_forall. intros x Hx. apply in_map_iff in Hx as (c & <- & _).
    apply P_card.
  - exists []. destruct (is_request_exception e); simpl; rewrite app_nil_r; now split.
Qed.

Lemma run_adds (net : AniList.Net) (use_api : bool) (s : AniList.State) :
  exists new,
    AniList.results (fst (AniList.run net use_api s))
    = (AniList.results s ++ new)%list /\ Forall P new.
Proof.
  assert (Hfin : forall (f : AniList.State * result unit) new,
             AniList.results (fst f) = (AniList.results s ++ new)%list ->
             AniList.results
               (fst (match f with
                     | (self, Ok _) => (AniList.persist self, Ok tt)
                     | (self, Raise e) => (self, Raise e)
                     end)) = (AniList.results s ++ new)%list).
  { intros [self [u|e]] new Hf; simpl in *; [now rewrite persist_results|exact Hf]. }
  unfold AniList.run. destruct use_api.
  - destruct (use_graphql_api_adds net s) as (new1 & H1 & HP1).
    destruct (AniList.use_graphql_api net s) as [s1 [n|e]]; simpl in H1.
    + destruct (0 <? n).
      * exists new1. split; [now apply (Hfin (s1, Ok tt))|exact HP1].
      * destruct (scrape_html_adds net s1) as (new2 & H2 & HP2).
        exists (new1 ++ new2)%list. split.
        -- apply Hfin. rewrite H2, H1. now rewrite app_assoc.
        -- apply Forall_app. now split.
    + exists new1. split; [now apply (Hfin (s1, Raise e))|exact HP1].
  - destruct (scrape_html_adds net s) as (new & Hn & HP).
    exists new. split; [now apply Hfin|exact HP].
Qed.

End Added.

(** X17.  Every entry the scraper appends has its tag equal to its
    title, on the GraphQL path and on the HTML path: if that holds of
    the entries an instance holds, it holds of all its entries after any
    run. *)
Theorem run_preserves_tag_is_title (net : AniList.Net) (use_api : bool)
    (s : AniList.State) :
  Forall tag_is_title (AniList.results s) ->
  Forall tag_is_title (AniList.results (fst (AniList.run net use_api s))).
Proof.
  intros Hs.
  destruct (run_adds tag_is_title (fun _ _ _ _ _ => eq_refl) (fun _ => eq_refl)
              net use_api s) as (new & -> & Hnew).
  apply Forall_app. now split.
Qed.

Lemma run_preserves_tag_is_title_witness :
  Forall tag_is_title (AniList.results (fst (AniList.run net_two true after_first_run))).
Proof.
  apply (run_preserves_tag_is_title net_two true after_first_run).
  repeat constructor.
Defined.


Lemma use_graphql_api_files (net : AniList.Net) (s : AniList.State) :
  AniList.json_file (fst (AniList.use_graphql_api net s)) = AniList.json_file s /\
  AniList.csv_file (fst (AniList.use_graphql_api net s)) = AniList.csv_file s.
Proof.
  assert (Happ : forall items s0,
             AniList.json_file (fst (AniList.append_media items s0)) = AniList.json_file s0 /\
             AniList.csv_file (fst (AniList.append_media items s0)) = AniList.csv_file s0).
  { induction items as [|[r e n l m|bad] rest IH]; intros s0; simpl; try now split.
    destruct (IH (AniList.set_results s0
                    (AniList.results s0 ++ [AniList.media_entry r e n l m])%list))
      as [Hj Hc].
    now rewrite Hj, Hc. }
  unfold AniList.use_graphql_api, AniList.graphql_handler.
  destruct (AniList.graphql_post net) as [[items|]|e].
  - pose proof (Happ items (AniList.log_call s AniList.CallGraphQL)) as [Hj Hc].
    destruct (AniList.append_media items _) as [s1 [u|e]]; simpl in *;
      [now split|]. now destruct (is_request_exception e).
  - now split.
  - now destruct (is_request_exception e).
Qed.

Lemma scrape_html_files (net : AniList.Net) (s : AniList.State) :
  AniList.json_file (fst (AniList.scrape_html net s)) = AniList.json_file s /\
  AniList.csv_file (fst (AniList.scrape_html net s)) = AniList.csv_file s.
Proof.
  unfold AniList.scrape_html, AniList.fetch_page.
  destruct (AniList.page_get net) as [cards|e]; [now split|].
  now destruct (is_request_exception e).
Qed.

(** The state in which [run] reaches its last step (lines 632-637), and
    how the fetching ended. *)
Lemma run_fetched (net : AniList.Net) (use_api : bool) (s : AniList.State) :
  exists (fetched : AniList.State) (r : result unit),
    AniList.json_file fetched = AniList.json_file s /\
    AniList.csv_file fetched = AniList.csv_file s /\
    AniList.run net use_api s
    = match r with
      | Ok _ => (AniList.persist fetched, Ok tt)
      | Raise e => (fetched, Raise e)
      end.
Proof.
  unfold AniList.run. destruct use_api.
  - pose proof (use_graphql_api_files net s) as [Hj Hc].
    destruct (AniList.use_graphql_api net s) as [s1 [n|e]]; cbn [fst] in Hj, Hc.
    + destruct (0 <? n).
      * exists s1, (Ok tt). now repeat split.
      * pose proof (scrape_html_files net s1) as [Hj2 Hc2].
        destruct (AniList.scrape_html net s1) as [s2 [u|e]]; cbn [fst] in Hj2, Hc2.
        -- exists s2, (Ok tt). repeat split; congruence.
        -- exists s2, (Raise e). repeat split; congruence.
    + exists s1, (Raise e). now repeat split.
  - pose proof (scrape_html_files net s) as [Hj Hc].
    destruct (AniList.scrape_html net s) as [s1 [u|e]]; cbn [fst] in Hj, Hc.
    + exists s1, (Ok tt). now repeat split.
    + exists s1, (Raise e). now repeat split.
Qed.

(** X19.  A run that ends normally with a non-empty list persists it in
    full: the JSON artifact is the whole list of the instance and the CSV
    artifact is the header line followed by one line per entry of that
    list, in order. *)
Theorem run_persists_in_full (net : AniList.Net) (use_api : bool) (s : AniList.State) :
  snd (AniList.run net use_api s) = Ok tt ->
  AniList.results (fst (AniList.run net use_api s)) <> [] ->
  AniList.json_file (fst (AniList.run net use_api s))
    = Some (AniList.results (fst (AniList.run net use_api s))) /\
  AniList.csv_file (fst (AniList.run net use_api s))
    = Some (["tag"; "image"; "title"]
            :: map AniList.csv_row (AniList.results (fst (AniList.run net use_api s)))).
Proof.
  destruct (run_fetched net use_api s) as (fetched & r & _ & _ & ->).
  destruct r as [u|e]; cbn [fst snd]; [|discriminate].
  intros _ Hne. rewrite persist_results in *.
  destruct (persist_files fetched Hne) as (Hj & Hc & _). now split.
Qed.

Lemma run_persists_in_full_witness :
  AniList.json_file (fst (AniList.run net_two true after_first_run))
    = Some (AniList.results (fst (AniList.run net_two true after_first_run))) /\
  AniList.csv_file (fst (AniList.run net_two true after_first_run))
    = Some (["tag"; "image"; "title"]
            :: map AniList.csv_row
                 (AniList.results (fst (AniList.run net_two true after_first_run)))).
Proof.
  apply (run_persists_in_full net_two true after_first_run).
  - reflexivity.
  - discriminate.
Defined.

(** X20.  A run after which the instance holds no entry writes nothing:
    the JSON and the CSV artifact are the ones that were there before. *)
Theorem empty_run_leaves_artifacts (net : AniList.Net) (use_api : bool)
    (s : AniList.State) :
  AniList.results (fst (AniList.run net use_api s)) = [] ->
  AniList.json_file (fst (AniList.run net use_api s)) = AniList.json_file s /\
  AniList.csv_file (fst (AniList.run net use_api s)) = AniList.csv_file s.
Proof.
  destruct (run_fetched net use_api s) as (fetched & r & Hj & Hc & ->).
  destruct r as [u|e]; cbn [fst]; [|now split].
  rewrite persist_results. intros Hnil.
  unfold AniList.persist. rewrite Hnil. now split.
Qed.

Lemma empty_run_leaves_artifacts_witness :
  AniList.json_file
    (fst (AniList.run net_down true
            (AniList.init (Some (Api.json_content stale_json)) None)))
    = Some (Api.json_content stale_json) /\
  AniList.csv_file
    (fst (AniList.run net_down true
            (AniList.init (Some (Api.json_content stale_json)) None)))
    = None.
Proof.
  apply (empty_run_leaves_artifacts net_down true
           (AniList.init (Some (Api.json_content stale_json)) None)).
  reflexivity.
Defined.







(** ** The other endpoints *)

Lemma scrape_books_returns (w : World) :
  exists data,
    Api.scrape_books w
    = (trace (get_international_books w), Ok (App.Json (map Excel.book_dict data))) /\
    outcome (get_international_books w) = Ok data.
Proof.
  destruct (get_international_books_returns w) as (data & Hd).
  exists data. split; [|exact Hd]. unfold Api.scrape_books, bind, ret.
  destruct (get_international_books w) as [t o]. unfold outcome in Hd; simpl in Hd.
  subst o. unfold trace. simpl. now rewrite app_nil_r.
Qed.

Lemma chrome_first {A} (r : result unit) (k : unit -> M A) (h : exn -> M A)
    (cleanup : list event) :
  exists t,
    trace (finally_ (try_except (bind (call EvChrome r) k) h) cleanup) = EvChrome :: t.
Proof.
  unfold finally_, try_except, bind, call, trace. cbn [fst].
  destruct r as [[]|e].
  - destruct (k tt) as [t' [a|e]]; cbn [fst]; [eexists; reflexivity|].
    destruct (h e) as [t'' o]. cbn [fst]. eexists; reflexivity.
  - destruct (h e) as [t'' o]. cbn [fst]. eexists; reflexivity.
Qed.

(** X23.  [/api/books] serves the newest workbook while it is less than
    two hours old, without starting a browser or requesting anything,
    and scrapes the catalog from two hours on; so a workbook between one
    and two hours old is still served for books while [/api/news]
    already scrapes afresh. *)
Theorem books_cache_gate (w : World) (listing : list App.File) (now : Q)
    (latest : App.File) :
  App.latest_file listing = Some latest ->
  Api.BOOKS_TTL = inject_Z 7200 /\
  ((now - App.mtime latest < Api.BOOKS_TTL)%Q ->
   trace (Api.get_books_data w listing now) = [] /\
   forall records,
     Excel.read_excel (App.workbook latest) "Gramedia Books" = Ok records ->
     outcome (Api.get_books_data w listing now) = Ok (App.Json records)) /\
  ((Api.BOOKS_TTL <= now - App.mtime latest)%Q ->
   Api.get_books_data w listing now = Api.scrape_books w /\
   rendered_invoked (Api.get_books_data w listing now) = true) /\
  ((App.NEWS_TTL <= now - App.mtime latest)%Q ->
   (now - App.mtime latest < Api.BOOKS_TTL)%Q ->
   trace (Api.get_books_data w listing now) = [] /\
   trace (App.get_news_data w listing now) <> []).
Proof.
  intros Hlatest. split; [reflexivity|].
  assert (Hfresh : (now - App.mtime latest < Api.BOOKS_TTL)%Q ->
                   trace (Api.get_books_data w listing now) = [] /\
                   forall records,
                     Excel.read_excel (App.workbook latest) "Gramedia Books" = Ok records ->
                     outcome (Api.get_books_data w listing now) = Ok (App.Json records)).
  { intros Hlt. unfold Api.get_books_data. rewrite Hlatest, (Qlt_bool_true _ _ Hlt).
    unfold try_except, bind, pure_call, ret, trace, outcome.
    destruct (Excel.read_excel _ _) as [records|e]; simpl.
    - split; [reflexivity|]. intros r Hr. now inversion Hr.
    - split; [reflexivity|]. discriminate. }
  split; [exact Hfresh|]. split.
  - intros Hstale. unfold Api.get_books_data.
    rewrite Hlatest, (Qlt_bool_false _ _ Hstale).
    destruct (scrape_books_returns w) as (data & Hs & _).
    rewrite Hs. unfold try_except. split; [reflexivity|].
    unfold rendered_invoked. unfold trace at 1. cbn [fst].
    unfold get_international_books.
    match goal with |- context [trace (finally_ (try_except (bind (call EvChrome ?r) ?k) ?h) ?c)] =>
      destruct (chrome_first r k h c) as (t & ->) end.
    reflexivity.
  - intros Hnews Hbooks. split; [apply (Hfresh Hbooks)|].
    unfold App.get_news_data. rewrite Hlatest, (Qlt_bool_false _ _ Hnews).
    destruct (scrape_fresh_acquires w) as ((batch & _ & Hout) & Hreq).
    unfold try_except. destruct (App.scrape_fresh w) as [t o] eqn:Hsf.
    unfold outcome in Hout; simpl in Hout. subst o. unfold trace. cbn [fst].
    specialize (Hreq (mkSource "kompas" "https://www.kompas.com/") (or_introl eq_refl)).
    unfold trace in Hreq. cbn [fst] in Hreq. intros ->. exact Hreq.
Qed.

Lemma books_cache_gate_witness :
  trace (Api.get_books_data world_blank results_listing (inject_Z (5000 + 90 * 60))) = [] /\
  trace (App.get_news_data world_blank results_listing (inject_Z (5000 + 90 * 60))) <> [].
Proof.
  destruct (books_cache_gate world_blank results_listing (inject_Z (5000 + 90 * 60))
              newer_workbook eq_refl) as (_ & _ & _ & Hboth).
  apply Hboth; [discriminate|reflexivity].
Defined.

(** X24.  When the newest workbook is fresh but has no sheet of the
    requested name (any [.xlsx] file in the directory counts), the
    endpoint answers with a server error and does not fall back to
    scraping: no request is made and no browser is started. *)
Theorem fresh_workbook_without_sheet (w : World) (listing : list App.File) (now : Q)
    (latest : App.File) :
  App.latest_file listing = Some latest ->
  (now - App.mtime latest < App.NEWS_TTL)%Q ->
  Py.lookup (App.workbook latest) "News Headlines" = None ->
  Py.lookup (App.workbook latest) "Gramedia Books" = None ->
  (exists msg, App.get_news_data w listing now = ([], Ok (App.ServerError msg))) /\
  (exists msg, Api.get_books_data w listing now = ([], Ok (App.ServerError msg))).
Proof.
  intros Hlatest Hnews Hn Hb.
  assert (Hbooks : (now - App.mtime latest < Api.BOOKS_TTL)%Q).
  { eapply Qlt_trans; [exact Hnews|]. reflexivity. }
  unfold App.get_news_data, Api.get_books_data.
  rewrite Hlatest, (Qlt_bool_true _ _ Hnews), (Qlt_bool_true _ _ Hbooks).
  unfold Excel.read_excel. rewrite Hn, Hb.
  split; eexists; reflexivity.
Qed.

Lemma fresh_workbook_without_sheet_witness :
  (exists msg,
     App.get_news_data world_blank (results_listing ++ [foreign_workbook])%list
       (inject_Z 6100) = ([], Ok (App.ServerError msg))) /\
  (exists msg,
     Api.get_books_data world_blank (results_listing ++ [foreign_workbook])%list
       (inject_Z 6100) = ([], Ok (App.ServerError msg))).
Proof.
  apply (fresh_workbook_without_sheet world_blank
           (results_listing ++ [foreign_workbook])%list (inject_Z 6100) foreign_workbook).
  - reflexivity.
  - reflexivity.
  - reflexivity.
  - reflexivity.
Defined.

(** X25.  [/api/anime] serves the JSON artifact as it is while it is
    less than three hours old and makes no request at all. *)
Theorem anime_cache_served_when_fresh (net : AniList.Net) (file : Api.JsonFile)
    (csv : option (list (list string))) (now : Q) :
  (now - Api.json_mtime file < Api.ANIME_TTL)%Q ->
  Api.ANIME_TTL = inject_Z 10800 /\
  Api.get_anime_data net (Some file) csv now
  = ([], App.Json (map Api.entry_dict (Api.json_content file))).
Proof.
  intros Hfresh. split; [reflexivity|].
  unfold Api.get_anime_data. now rewrite (Qlt_bool_true _ _ Hfresh).
Qed.

Lemma anime_cache_served_when_fresh_witness :
  Api.ANIME_TTL = inject_Z 10800 /\
  Api.get_anime_data net_down (Some stale_json) None (inject_Z (1000 + 179 * 60))
  = ([], App.Json (map Api.entry_dict (Api.json_content stale_json))).
Proof.
  apply (anime_cache_served_when_fresh net_down stale_json None
           (inject_Z (1000 + 179 * 60))).
  reflexivity.
Defined.



(** X27.  [/api/status] reports news and books as available together,
    exactly when the directory holds a workbook; the anime flag is the
    existence of the JSON artifact; and the time of the last update is
    the modification time of a workbook of the directory that no other
    workbook is newer than, absent exactly when there is no workbook. *)
Theorem status_reports_newest_workbook (listing : list App.File) (anime : bool) :
  Api.news_available (Api.get_status listing anime)
    = Api.books_available (Api.get_status listing anime) /\
  Api.anime_available (Api.get_status listing anime) = anime /\
  (Api.news_available (Api.get_status listing anime) = true <->
   exists f, In f listing /\ Py.endswith (App.fname f) ".xlsx" = true) /\
  (Api.last_update (Api.get_status listing anime) = None <->
   Api.news_available (Api.get_status listing anime) = false) /\
  (forall t, Api.last_update (Api.get_status listing anime) = Some t ->
     exists latest,
       In latest listing /\ Py.endswith (App.fname latest) ".xlsx" = true /\
       App.mtime latest = t /\
       forall f, In f listing -> Py.endswith (App.fname f) ".xlsx" = true ->
                 (App.mtime f <= t)%Q).
Proof.
  unfold Api.get_status. cbn [Api.news_available Api.books_available
    Api.anime_available Api.last_update].
  split; [reflexivity|]. split; [reflexivity|]. split; [|split].
  - rewrite Nat.ltb_lt. split.
    + intros Hlen. destruct (App.excel_files listing) as [|f fs] eqn:Hx;
        [simpl in Hlen; lia|].
      exists f. apply (filter_In (fun f => Py.endswith (App.fname f) ".xlsx") f listing).
      unfold App.excel_files in Hx. rewrite Hx. now left.
    + intros (f & Hin & Hx).
      assert (Hf : In f (App.excel_files listing)) by (apply filter_In; now split).
      destruct (App.excel_files listing); [contradiction|simpl; lia].
  - destruct (App.excel_files listing) as [|f fs] eqn:Hx.
    + simpl. split; reflexivity.
    + destruct (App.sorted_desc (f :: fs)) as [|g rest] eqn:Hs.
      * apply sorted_desc_empty in Hs. discriminate.
      * simpl. split; discriminate.
  - intros t Ht.
    destruct (App.latest_file listing) as [latest|] eqn:Hl;
      unfold App.latest_file in Hl; rewrite Hl in Ht; [|discriminate].
    simpl in Ht. inversion Ht; subst t.
    destruct (latest_file_newest listing latest Hl) as (Hin & Hx & Hmax).
    exists latest. repeat split; assumption.
Qed.

(** ** Whole runs *)

Lemma news_sheet_follows_sources (batch : list NewsRecord) :
  Forall2 (fun s r => well_formed (name s) (url s) r) NEWS_SOURCES batch ->
  Excel.columns (Excel.news_sheet batch) = ["Media"; "Headline"; "Image"; "URL"] /\
  Forall2 (fun s row =>
             exists headline image,
               row = [Some (Py.capitalize (name s)); Some headline; Some image;
                      Some (url s)] /\
               headline <> "" /\ image <> "")
          NEWS_SOURCES (Excel.rows (Excel.news_sheet batch)).
Proof.
  intros Hall.
  assert (Hrows : forall sources l,
             Forall2 (fun s r => well_formed (name s) (url s) r) sources l ->
             Forall2 (fun s row =>
                        exists headline image,
                          row = [Some (Py.capitalize (name s)); Some headline; Some image;
                                 Some (url s)] /\
                          headline <> "" /\ image <> "")
                     sources
                     (map (fun r => [Some (Media r); Some (Headline r); Some (Image r);
                                     Some (URL r)]) l)).
  { induction 1 as [|s r sources l (HM & HU & HH & HI) _ IH]; simpl; constructor;
      [|exact IH].
    exists (Headline r), (Image r). rewrite HM, HU. now repeat split. }
  destruct batch as [|r batch]; [inversion Hall|].
  split; [reflexivity|]. now apply Hrows.
Qed.

(** The acquisition loop over the configured sources, with its events. *)
Lemma scrape_news_run (w : World) :
  exists t batch,
    news_loop (get_news w) NEWS_SOURCES [] = (t, Ok batch) /\
    Forall2 (fun s r => well_formed (name s) (url s) r) NEWS_SOURCES batch /\
    forall s, In s NEWS_SOURCES -> In (EvRequest (url s)) t.
Proof.
  destruct (scrape_news_records w) as (batch & Hrun & Hrec).
  unfold scrape_news in Hrun.
  pose proof (news_loop_trace (get_news w) NEWS_SOURCES []) as Htrace.
  destruct (news_loop (get_news w) NEWS_SOURCES []) as [t o].
  unfold outcome in Hrun; unfold trace in Htrace at 1; cbn [fst snd] in *. subst o.
  exists t, batch. split; [reflexivity|]. split.
  - eapply Forall2_impl; [|exact Hrec]. intros s r Hr.
    destruct (get_news_returns w (name s) (url s)) as (r' & Hr' & Hwf).
    rewrite Hr in Hr'. now inversion Hr'; subst.
  - intros s Hs. rewrite Htrace. apply in_concat.
    exists (trace (get_news w (name s) (url s))). split.
    + apply in_map_iff. now exists s.
    + destruct (get_news_requests_first w (name s) (url s)) as (t' & ->). now left.
Qed.

Lemma catalog_run (w : World) :
  exists t data, get_international_books w = (EvChrome :: t, Ok data).
Proof.
  destruct (get_international_books_returns w) as (data & Hd).
  assert (Hc : exists t, trace (get_international_books w) = EvChrome :: t).
  { unfold get_international_books. apply chrome_first. }
  destruct Hc as (t & Ht).
  destruct (get_international_books w) as [t0 o].
  unfold outcome in Hd; unfold trace in Ht; cbn [fst snd] in *. subst.
  now exists t, data.
Qed.




(** X29.  [/api/scrape-all] answers with counts only after the workbook
    was saved and the trending scraper ended normally; then the news
    count is 3 (one record per configured source), and the anime count is
    the length of the scraper's list, which is what the JSON artifact
    holds when that count is not 0.  If the workbook cannot be saved, the
    trending scraper is not run.  If the trending scraper raises, the
    answer is an error although the workbook of this refresh is already
    on disk. *)
Theorem scrape_all_response (w : World) (net : AniList.Net)
    (save : Excel.Workbook -> result unit)
    (json : option (list AniList.Entry)) (csv : option (list (list string))) :
  (forall n b a,
     snd (Pipeline.scrape_all w net save json csv) = Pipeline.Refreshed n b a ->
     n = 3 /\
     exists wb st,
       Pipeline.workbook (fst (Pipeline.scrape_all w net save json csv)) = Some wb /\
       save wb = Ok tt /\ news_rows_follow_sources wb /\
       Pipeline.anime (fst (Pipeline.scrape_all w net save json csv)) = Some (st, Ok tt) /\
       a = length (AniList.results st) /\
       (0 < a -> AniList.json_file st = Some (AniList.results st))) /\
  (Pipeline.workbook (fst (Pipeline.scrape_all w net save json csv)) = None ->
   Pipeline.anime (fst (Pipeline.scrape_all w net save json csv)) = None /\
   exists msg, snd (Pipeline.scrape_all w net save json csv) = Pipeline.RefreshError msg) /\
  (forall st e,
     Pipeline.anime (fst (Pipeline.scrape_all w net save json csv)) = Some (st, Raise e) ->
     snd (Pipeline.scrape_all w net save json csv) = Pipeline.RefreshError (exn_msg e) /\
     exists wb,
       Pipeline.workbook (fst (Pipeline.scrape_all w net save json csv)) = Some wb /\
       save wb = Ok tt).
Proof.
  destruct (scrape_news_run w) as (t1 & batch & Hnews & Hwf & Hreq).
  destruct (catalog_run w) as (t2 & data & Hbooks).
  destruct (news_sheet_follows_sources batch Hwf) as [Hcols Hrows].
  pose proof (Forall2_length Hwf) as Hlen. simpl in Hlen.
  unfold Pipeline.scrape_all. rewrite Hnews, Hbooks.
  destruct (save (Pipeline.refresh_workbook batch data)) as [[]|e0] eqn:Hsave;
    cbn [fst snd Pipeline.workbook Pipeline.anime].
  - destruct (run_fetched net true (AniList.init json csv)) as (fetched & r & _ & _ & Hrun).
    rewrite Hrun. destruct r as [u|e]; cbn [fst snd].
    + split; [|split; [discriminate|]].
      * intros n b a Hresp. inversion Hresp; subst. split; [now symmetry|].
        exists (Pipeline.refresh_workbook batch data), (AniList.persist fetched).
        split; [reflexivity|]. split; [exact Hsave|]. split.
        { exists (Excel.news_sheet batch). now repeat split. }
        split; [reflexivity|]. split; [reflexivity|].
        rewrite persist_results. intros Hpos.
        apply (persist_files fetched). intros Hnil. rewrite Hnil in Hpos.
        simpl in Hpos. lia.
      * intros st e Hst. inversion Hst.
    + split; [discriminate|]. split; [discriminate|].
      intros st e' Hst. inversion Hst; subst. split; [reflexivity|].
      now exists (Pipeline.refresh_workbook batch data).
  - split; [discriminate|]. split; [|discriminate].
    intros _. split; [reflexivity|]. now exists (exn_msg e0).
Qed.

Example scrape_all_with_malformed_answer :
  snd (Pipeline.scrape_all world_blank net_malformed save_ok None None)
    = Pipeline.RefreshError "'NoneType' object is not subscriptable" /\
  Pipeline.workbook (fst (Pipeline.scrape_all world_blank net_malformed save_ok None None))
    <> None.
Proof. split; [reflexivity|discriminate]. Qed.

Example scrape_all_succeeds :
  snd (Pipeline.scrape_all world_blank net_two save_ok None None)
    = Pipeline.Refreshed 3 0 1.
Proof. reflexivity. Qed.

Example main_with_full_disk :
  Pipeline.main world_blank net_two (Ok "logs/scraper_20240101_090000.log")
    "20240101_090000" quiet_print save_fails None None
  = (Pipeline.mkRun
       (trace (scrape_news world_blank) ++ trace (get_international_books world_blank))
       None None,
     Ok tt).
Proof. reflexivity. Qed.

Example main_with_ascii_console :
  let run := Pipeline.main world_detik net_two (Ok "logs/scraper_20240101_090000.log")
               "20240101_090000" ascii_console save_ok None None in
  option_map (fun wb => option_map (fun sheet => length (Excel.rows sheet))
                                   (Py.lookup wb "News Headlines"))
             (Pipeline.workbook (fst run)) = Some (Some 4) /\
  Pipeline.anime (fst run) = Some (AniList.run net_two true (AniList.init None None)) /\
  snd run = Ok tt.
Proof. repeat split; reflexivity. Qed.

Example main_with_closed_console :
  let run := Pipeline.main world_detik net_two (Ok "logs/scraper_20240101_090000.log")
               "20240101_090000" closed_console save_ok None None in
  option_map (fun wb => option_map (fun sheet => length (Excel.rows sheet))
                                   (Py.lookup wb "News Headlines"))
             (Pipeline.workbook (fst run)) = Some (Some 6) /\
  Pipeline.anime (fst run) = None /\
  snd run = Raise (mkExn OtherException "[Errno 32] Broken pipe").
Proof. repeat split; reflexivity. Qed.
